(** * Secure_Calculator_Pro: the expression evaluator and its callers

    A shallow embedding of [SafeEvaluator] (sanitizer, validator, evaluate)
    and of [FormulaCalculator.calculate] from [Secure_Calculator_Pro.py].

    Python strings are sequences of Unicode code points; dictionaries are
    objects on a heap and are passed by reference; [eval], [str] and the
    Unicode character database belong to the Python runtime and are taken
    as a parameter ([host]). *)

From stdpp Require Import base strings gmap list pretty sorting.
From Stdlib Require Import ZArith NArith Lia Floats.PrimFloat.

Local Open Scope N_scope.

(** ** Python strings *)

Module PyStr.

(** A [str] is a sequence of code points. *)
Definition pystr := list N.

Fixpoint bytes_of_string (s : string) : list N :=
  match s with
  | EmptyString => []
  | String a s' => Ascii.N_of_ascii a :: bytes_of_string s'
  end.

(** Literals of this file are written in UTF-8; [utf8_decode] turns the
    bytes of a literal into the code points Python sees. *)
Fixpoint utf8_decode (bs : list N) : pystr :=
  match bs with
  | [] => []
  | b0 :: r0 =>
    if b0 <? 0x80 then b0 :: utf8_decode r0
    else match r0 with
    | [] => []
    | b1 :: r1 =>
      if b0 <? 0xE0 then ((b0 - 0xC0) * 64 + (b1 - 0x80)) :: utf8_decode r1
      else match r1 with
      | [] => []
      | b2 :: r2 =>
        if b0 <? 0xF0
        then ((b0 - 0xE0) * 4096 + (b1 - 0x80) * 64 + (b2 - 0x80)) :: utf8_decode r2
        else match r2 with
        | [] => []
        | b3 :: r3 =>
          ((b0 - 0xF0) * 262144 + (b1 - 0x80) * 4096 + (b2 - 0x80) * 64 + (b3 - 0x80))
            :: utf8_decode r3
        end
      end
    end
  end.

Definition py (s : string) : pystr := utf8_decode (bytes_of_string s).

Definition LF : N := 0x0A.

(** [Py_UNICODE_ISSPACE]: the characters [str.split()] and [str.strip()]
    treat as whitespace. *)
Definition isspace (c : N) : bool :=
  ((0x09 <=? c) && (c <=? 0x0D)) || ((0x1C <=? c) && (c <=? 0x20))
  || (c =? 0x85) || (c =? 0xA0) || (c =? 0x1680)
  || ((0x2000 <=? c) && (c <=? 0x200A))
  || (c =? 0x2028) || (c =? 0x2029) || (c =? 0x202F) || (c =? 0x205F)
  || (c =? 0x3000).

(** [s.split()]: the maximal runs of non-whitespace characters, in order.
    [w] is the run being read, most recent character first. *)
Definition flush (w : pystr) (out : list pystr) : list pystr :=
  match w with
  | [] => out
  | _ => rev w :: out
  end.

Fixpoint split_ws (w : pystr) (s : pystr) : list pystr :=
  match s with
  | [] => flush w []
  | c :: r => if isspace c then flush w (split_ws [] r) else split_ws (c :: w) r
  end.

Definition split (s : pystr) : list pystr := split_ws [] s.

(** [sep.join(parts)] *)
Fixpoint join (sep : pystr) (parts : list pystr) : pystr :=
  match parts with
  | [] => []
  | [p] => p
  | p :: ps => p ++ sep ++ join sep ps
  end.

(** [s.replace(old, new)] for one-character [old] and [new]. *)
Definition replace (old new : N) (s : pystr) : pystr :=
  map (fun c => if c =? old then new else c) s.

(** [s.strip()] *)
Fixpoint lstrip (s : pystr) : pystr :=
  match s with
  | [] => []
  | c :: r => if isspace c then lstrip r else s
  end.
Definition strip (s : pystr) : pystr := rev (lstrip (rev (lstrip s))).

(** [c in s] for a one-character [c]. *)
Definition contains (c : N) (s : pystr) : bool := existsb (N.eqb c) s.

(** [s.split(sep, 1)] for a one-character [sep]: the text before the first
    [sep] and the text after it; a string without [sep] is one part. *)
Fixpoint split_once (sep : N) (s : pystr) : pystr * option pystr :=
  match s with
  | [] => ([], None)
  | c :: r =>
    if c =? sep then ([], Some r)
    else let '(a, b) := split_once sep r in (c :: a, b)
  end.

End PyStr.
Export PyStr.

(** ** SafeEvaluator: sanitizer and validator *)

Definition FULLWIDTH_LPAREN : N := 0xFF08.
Definition FULLWIDTH_RPAREN : N := 0xFF09.

(** [sanitize_input]: [''.join(expr.split())], then the two [replace]s. *)
Definition sanitize_input (expr : pystr) : pystr :=
  let expr := join [] (split expr) in
  replace FULLWIDTH_RPAREN 0x29 (replace FULLWIDTH_LPAREN 0x28 expr).

(** The part of the Unicode character database the code consults through
    [\d] and [str.isidentifier], for the code points above ASCII. *)
Record unicode_db := {
  ucd_decimal : N -> bool;
  ucd_xid_start : N -> bool;
  ucd_xid_continue : N -> bool
}.

Definition ascii_digit (c : N) : bool := (0x30 <=? c) && (c <=? 0x39).
Definition ascii_lower (c : N) : bool := (0x61 <=? c) && (c <=? 0x7A).
Definition ascii_upper (c : N) : bool := (0x41 <=? c) && (c <=? 0x5A).

(** [\d] of a [str] pattern: [Py_UNICODE_ISDECIMAL]. *)
Definition re_digit (U : unicode_db) (c : N) : bool :=
  if c <? 0x80 then ascii_digit c else ucd_decimal U c.

(** The punctuation of the character class, [+\-*/%().,] and [!^&=<>|~]. *)
Definition safe_punct : pystr := py "+-*/%().,!^&=<>|~".

(** The class [[\d+\-*/%().,a-zA-Z!^&=<>|~]]. *)
Definition safe_char (U : unicode_db) (c : N) : bool :=
  re_digit U c || contains c safe_punct || ascii_lower c || ascii_upper c.

(** [$] outside MULTILINE mode: the end of the string, or just before a
    newline that ends the string. *)
Definition at_dollar (rest : pystr) : bool :=
  match rest with
  | [] => true
  | [c] => c =? LF
  | _ => false
  end.

(** [re.match(r'^[...]+$', s)]: from the start of [s], one or more
    characters of the class, then [$]. *)
Fixpoint match_plus_dollar (U : unicode_db) (s : pystr) : bool :=
  match s with
  | [] => false
  | c :: rest => safe_char U c && (match_plus_dollar U rest || at_dollar rest)
  end.

Definition is_safe_expression (U : unicode_db) (expr : pystr) : bool :=
  match_plus_dollar U expr.

(** [str.isidentifier]: a start character (XID_Start or the underscore)
    followed by XID_Continue characters; the empty string is not one. *)
Definition xid_start (U : unicode_db) (c : N) : bool :=
  if c <? 0x80 then ascii_lower c || ascii_upper c else ucd_xid_start U c.

Definition xid_continue (U : unicode_db) (c : N) : bool :=
  if c <? 0x80
  then ascii_lower c || ascii_upper c || ascii_digit c || (c =? 0x5F)
  else ucd_xid_continue U c.

Definition isidentifier (U : unicode_db) (s : pystr) : bool :=
  match s with
  | [] => false
  | c :: r => (xid_start U c || (c =? 0x5F)) && forallb (xid_continue U) r
  end.

(** ** Python objects, exceptions and the heap *)

Inductive value :=
| VNone
| VBool (b : bool)
| VInt (n : Z)
| VFloat (f : float)
| VStr (s : pystr)
| VObject (repr : pystr)         (* any other object, by its [repr] *)
| VBuiltin (qualname : string)   (* a built-in function, by qualified name *)
| VLambda_lcm                    (* the lambda stored under 'lcm' *)
| VBuiltinsModule.               (* the module [builtins] *)

(** The dictionaries of the program have [str] keys. *)
Abbreviation dict := (gmap pystr value).

(** An exception: its class and [str(e)].  Every exception of the model
    derives from [Exception]. *)
Inductive exn := PyExc (cls : string) (msg : pystr).

Definition exn_class (e : exn) : string := let 'PyExc c _ := e in c.
Definition exn_str (e : exn) : pystr := let 'PyExc _ m := e in m.

Definition ValueError (msg : pystr) : exn := PyExc "ValueError" msg.

Inductive outcome (A : Type) :=
| Return (a : A)
| Raise (e : exn).
Arguments Return {A} a.
Arguments Raise {A} e.

(** What the window shows, in the order the calls are made. *)
Inductive ui_event :=
| StatusMessage (msg : pystr)       (* statusBar().showMessage(msg, 3000) *)
| WarningBox (title msg : pystr)    (* QMessageBox.warning(self, title, msg) *)
| ResultAppend (text : pystr)       (* result_area.append(text) *)
| HistoryAppend (text : pystr)      (* history.append(text) *)
| VarDisplay (vars : dict)          (* update_var_display: the table shown *)
| MoveCursorEnd
| InputClear.

(** A dictionary is an object: a reference into the heap. *)
Definition loc := nat.

(** The state a call runs in: the dictionaries alive, the calls made to the
    built-in [eval] (expression, globals, locals), and the window's events. *)
Record world := World {
  heap : list dict;
  eval_log : list (pystr * dict * dict);
  ui_log : list ui_event
}.

Definition set_heap (h : list dict) (w : world) : world :=
  World h (eval_log w) (ui_log w).

(** The Python runtime underneath the program. [builtin_eval s g l] is
    [eval(s, g, l)] on the contents of the two dictionaries: its outcome and
    what the two dictionaries hold afterwards (the values in scope are
    immutable, so no other object is within reach of the expression).
    [str(v)], which the f-strings of the program call on a value, either
    raises, and [str_raises v] is the exception, or returns [builtin_str v].
    [builtins_module] is the contents of the module [builtins]. *)
Record host := Host {
  ucd : unicode_db;
  builtins_module : dict;
  builtin_eval : pystr -> dict -> dict -> outcome value * dict * dict;
  builtin_str : value -> pystr;
  str_raises : value -> option exn
}.

(** ** Statements: state and exceptions *)

Definition M (A : Type) : Type := world -> outcome A * world.

#[global] Instance M_ret : MRet M := fun A a w => (Return a, w).
#[global] Instance M_bind : MBind M := fun A B f m w =>
  match m w with
  | (Return a, w') => f a w'
  | (Raise e, w') => (Raise e, w')
  end.

Definition raise {A} (e : exn) : M A := fun w => (Raise e, w).

(** [try: body  except Exception as e: handler(e)] *)
Definition try_except {A} (body : M A) (handler : exn -> M A) : M A := fun w =>
  match body w with
  | (Return a, w') => (Return a, w')
  | (Raise e, w') => handler e w'
  end.

(** [try: body  except ValueError as e: handler(e)] *)
Definition try_except_ValueError {A} (body : M A) (handler : exn -> M A) : M A :=
  try_except body
    (fun e => if String.eqb (exn_class e) "ValueError" then handler e else raise e).

Definition deref (l : loc) (w : world) : dict := default ∅ (heap w !! l).

(** A dictionary display or [dict.copy()]: a new object. *)
Definition dict_new (d : dict) : M loc := fun w =>
  (Return (length (heap w)), set_heap (heap w ++ [d]) w).

Definition dict_read (l : loc) : M dict := fun w => (Return (deref l w), w).

Definition dict_write (l : loc) (d : dict) : M unit := fun w =>
  (Return tt, set_heap (<[l := d]> (heap w)) w).

Definition dict_copy (l : loc) : M loc :=
  d ← dict_read l; dict_new d.

(** [dst.update(src)]: the entries of [src] replace those of [dst]. *)
Definition dict_update (dst src : loc) : M unit :=
  s ← dict_read src; d ← dict_read dst; dict_write dst (s ∪ d).

(** [d[k] = v] *)
Definition dict_setitem (l : loc) (k : pystr) (v : value) : M unit :=
  d ← dict_read l; dict_write l (<[k := v]> d).

Definition emit (e : ui_event) : M unit := fun w =>
  (Return tt, World (heap w) (eval_log w) (ui_log w ++ [e])).

(** [eval(expr, g, l)] on two dictionary objects. *)
Definition call_eval (H : host) (expr : pystr) (g l : loc) : M value := fun w =>
  let dg := deref g w in
  let dl := deref l w in
  let '(r, dg', dl') := builtin_eval H expr dg dl in
  (r, World (<[l := dl']> (<[g := dg']> (heap w)))
            (eval_log w ++ [(expr, dg, dl)]) (ui_log w)).

(** ** SafeEvaluator *)

Definition math_pi : float := 0x1.921fb54442d18p+1%float.
Definition math_e : float := 0x1.5bf0a8b145769p+1%float.
Definition math_tau : float := 0x1.921fb54442d18p+2%float.

(** The dictionary display of [SafeEvaluator.__init__]. *)
Definition safe_dict_items : list (pystr * value) :=
  [ (py "abs", VBuiltin "abs");
    (py "round", VBuiltin "round");
    (py "min", VBuiltin "min");
    (py "max", VBuiltin "max");
    (py "pow", VBuiltin "pow");
    (py "sqrt", VBuiltin "math.sqrt");
    (py "exp", VBuiltin "math.exp");
    (py "log", VBuiltin "math.log");
    (py "log10", VBuiltin "math.log10");
    (py "log2", VBuiltin "math.log2");
    (py "factorial", VBuiltin "math.factorial");
    (py "sin", VBuiltin "math.sin");
    (py "cos", VBuiltin "math.cos");
    (py "tan", VBuiltin "math.tan");
    (py "asin", VBuiltin "math.asin");
    (py "acos", VBuiltin "math.acos");
    (py "atan", VBuiltin "math.atan");
    (py "atan2", VBuiltin "math.atan2");
    (py "sinh", VBuiltin "math.sinh");
    (py "cosh", VBuiltin "math.cosh");
    (py "tanh", VBuiltin "math.tanh");
    (py "asinh", VBuiltin "math.asinh");
    (py "acosh", VBuiltin "math.acosh");
    (py "atanh", VBuiltin "math.atanh");
    (py "degrees", VBuiltin "math.degrees");
    (py "radians", VBuiltin "math.radians");
    (py "pi", VFloat math_pi);
    (py "e", VFloat math_e);
    (py "tau", VFloat math_tau);
    (py "inf", VFloat infinity);
    (py "nan", VFloat nan);
    (py "ceil", VBuiltin "math.ceil");
    (py "floor", VBuiltin "math.floor");
    (py "trunc", VBuiltin "math.trunc");
    (py "gcd", VBuiltin "math.gcd");
    (py "lcm", VLambda_lcm);
    (py "__builtins__", VNone) ].

Definition safe_dict_init : dict := list_to_map safe_dict_items.

(** The numbers: [int], [float] and [bool]. *)
Definition numeric (v : value) : bool :=
  match v with
  | VInt _ | VFloat _ | VBool _ => true
  | _ => false
  end.

(** A number is false in a condition when it is zero. *)
Definition is_zero (v : value) : bool :=
  match v with
  | VInt n => (n =? 0)%Z
  | VFloat f => PrimFloat.eqb f 0%float
  | VBool b => negb b
  | _ => false
  end.

(** [math.gcd] takes integers ([bool] is a subclass of [int]). *)
Definition as_int (v : value) : option Z :=
  match v with
  | VInt n => Some n
  | VBool b => Some (Z.b2z b)
  | _ => None
  end.

Definition float_not_integer : exn :=
  PyExc "TypeError" (py "'float' object cannot be interpreted as an integer").

Definition int_too_large : exn :=
  PyExc "OverflowError" (py "int too large to convert to float").

(** An [int] has a [float] next to it when, rounded to 53 bits, it stays
    below [2**1024]. *)
Definition fits_float (n : Z) : bool := (Z.abs n <? 2 ^ 1024 - 2 ^ 970)%Z.

(** [lambda a, b: abs(a*b) // math.gcd(a, b) if a and b else 0] on numbers:
    [//] is floor division and [math.gcd] the non-negative gcd.  With a
    [float] among two nonzero arguments the product is a float (an integer
    too large for a float cannot be multiplied by one) and [math.gcd]
    refuses the float.  [None] stands for arguments that are no numbers. *)
Definition lcm_lambda (a b : value) : option (outcome value) :=
  if numeric a && numeric b then
    if negb (is_zero a) && negb (is_zero b) then
      match as_int a, as_int b with
      | Some x, Some y => Some (Return (VInt (Z.abs (x * y) / Z.gcd x y)))
      | None, None => Some (Raise float_not_integer)
      | Some x, None | None, Some x =>
        Some (Raise (if fits_float x then float_not_integer else int_too_large))
      end
    else Some (Return (VInt 0))
  else None.

(** An instance holds a reference to its [safe_dict]. *)
Record SafeEvaluator := { safe_dict : loc }.

Definition SafeEvaluator_init : M SafeEvaluator :=
  l ← dict_new safe_dict_init; mret {| safe_dict := l |}.

Definition MSG_UNSAFE : pystr := py "表达式包含不安全字符".
Definition MSG_PREFIX : pystr := py "计算错误: ".

Definition skip : M unit := mret tt.

(** [if b: body] *)
Definition when (b : bool) (body : M unit) : M unit := if b then body else skip.

(** The truth value of a dictionary: whether it has an entry. *)
Definition dict_truthy (l : loc) : M bool :=
  d ← dict_read l; mret (negb (bool_decide (d = ∅))).

(** ** Formatting the variable table *)

(** [s.ljust(width)] *)
Definition ljust (width : nat) (s : pystr) : pystr :=
  s ++ replicate (width - length s) 0x20.

(** The order of [str]: by code points, a prefix first. *)
Fixpoint str_leb (a b : pystr) : bool :=
  match a, b with
  | [], _ => true
  | _ :: _, [] => false
  | x :: a', y :: b' =>
    if x <? y then true else if y <? x then false else str_leb a' b'
  end.

(** [sorted(d.items())]: the keys of a dictionary differ, so the pairs are
    ordered by their names. *)
Definition name_le (p q : pystr * value) : Prop := str_leb p.1 q.1 = true.

#[global] Instance name_le_dec (p q : pystr * value) : Decision (name_le p q).
Proof. unfold name_le. apply _. Defined.

Definition sorted_items (vars : dict) : list (pystr * value) :=
  merge_sort name_le (map_to_list vars).

Section Program.

Context (H : host).

(** [f"{v}"]: the text of [str(v)], or the exception it raises. *)
Definition format_value (v : value) : M pystr :=
  match str_raises H v with
  | Some e => raise e
  | None => mret (builtin_str H v)
  end.

(** The loop of [update_var_display]: one f-string per item. *)
Fixpoint format_items (items : list (pystr * value)) : M unit :=
  match items with
  | [] => skip
  | item :: items => format_value item.2;; format_items items
  end.

Definition evaluate (self : SafeEvaluator) (expr : pystr)
    (variables : option loc) : M value :=
  try_except
    (let expr := sanitize_input expr in
     if negb (is_safe_expression (ucd H) expr) then raise (ValueError MSG_UNSAFE)
     else
       eval_dict ← dict_copy (safe_dict self);
       (match variables return M unit with
        | None => skip
        | Some l =>
          nonempty ← dict_truthy l;
          when nonempty (dict_update eval_dict l)
        end);;
       globals ← dict_new {[ py "__builtins__" := VNone ]};
       call_eval H expr globals eval_dict)
    (fun e => raise (ValueError (MSG_PREFIX ++ exn_str e))).

(** ** FormulaCalculator.calculate *)

Record FormulaCalculator := {
  evaluator : SafeEvaluator;
  variables : loc
}.

Definition EQUALS : N := 0x3D.

(** [update_var_display]: the text is built line by line from the sorted
    items and shown at the end; an empty table is shown without a loop. *)
Definition update_var_display (self : FormulaCalculator) : M unit :=
  vars ← dict_read (variables self);
  (if bool_decide (vars = ∅) then skip else format_items (sorted_items vars));;
  emit (VarDisplay vars).

(** The branch [if '=' in expr] of [calculate], after the split. *)
Definition calculate_assignment (self : FormulaCalculator)
    (var_name var_expr : pystr) : M unit :=
  if negb (isidentifier (ucd H) var_name)
  then raise (ValueError (py "无效的变量名"))
  else
    var_value ← evaluate (evaluator self) var_expr (Some (variables self));
    dict_setitem (variables self) var_name var_value;;
    update_var_display self;;
    text ← format_value var_value;
    let result_text := var_name ++ py " = " ++ text in
    emit (ResultAppend result_text);;
    emit (HistoryAppend result_text).

(** The branch [else]. *)
Definition calculate_expression (self : FormulaCalculator) (expr : pystr) : M unit :=
  result ← evaluate (evaluator self) expr (Some (variables self));
  text ← format_value result;
  let result_text := expr ++ py " = " ++ text in
  emit (ResultAppend result_text);;
  emit (HistoryAppend result_text).

Definition calculate_failed (e : exn) : M unit :=
  emit (WarningBox (py "计算错误") (exn_str e));;
  emit (StatusMessage (py "计算失败")).

(** The end of the [try] block. *)
Definition calculate_done : M unit :=
  emit MoveCursorEnd;;
  emit InputClear;;
  emit (StatusMessage (py "计算成功")).

(** The [try] block of [calculate]. *)
Definition calculate_body (self : FormulaCalculator) (expr : pystr) : M unit :=
  (if contains EQUALS expr then
     let var_parts := split_once EQUALS expr in
     let var_name := strip (var_parts.1) in
     let var_expr := strip (default [] (var_parts.2)) in
     calculate_assignment self var_name var_expr
   else
     calculate_expression self expr);;
  calculate_done.

(** [calculate], on the text of the input line. *)
Definition calculate (self : FormulaCalculator) (text : pystr) : M unit :=
  let expr := strip text in
  match expr with
  | [] => emit (StatusMessage (py "输入不能为空"))
  | _ => try_except_ValueError (calculate_body self expr) calculate_failed
  end.

(** [FormulaCalculator.__init__]: a new evaluator and no variables. *)
Definition FormulaCalculator_init : M FormulaCalculator :=
  ev ← SafeEvaluator_init;
  vars ← dict_new ∅;
  mret {| evaluator := ev; variables := vars |}.

End Program.

(** ** What [eval] does on simple expressions

    Python's rules for a fragment of its expression language: names,
    decimal integers, parentheses, attribute references and calls, on
    short ASCII inputs.  [eval_fragment] answers [None] outside of it; it
    serves as the requirement [eval_conforms] on a host, never as the host. *)

Module PyFragment.

Inductive token :=
| T_NAME (id : pystr)
| T_INT (n : Z)
| T_LPAR | T_RPAR | T_COMMA | T_DOT.

Inductive expr :=
| Name (id : pystr)
| Num (n : Z)
| Attribute (e : expr) (attr : pystr)
| Call (f : expr) (args : exprs)
with exprs :=
| ENil
| ECons (e : expr) (es : exprs).

(** *** Tokens *)

Definition keywords : list pystr :=
  map py [ "False"; "None"; "True"; "and"; "as"; "assert"; "async"; "await";
           "break"; "class"; "continue"; "def"; "del"; "elif"; "else";
           "except"; "finally"; "for"; "from"; "global"; "if"; "import";
           "in"; "is"; "lambda"; "nonlocal"; "not"; "or"; "pass"; "raise";
           "return"; "try"; "while"; "with"; "yield" ]%string.

(** Keywords are no names, and [__debug__] is a constant of the compiler. *)
Definition is_keyword (id : pystr) : bool :=
  bool_decide (id ∈ keywords) || bool_decide (id = py "__debug__").

Definition name_start (c : N) : bool :=
  ascii_lower c || ascii_upper c || (c =? 0x5F).

Definition digit_value (c : N) : Z := Z.of_N (c - 0x30).

(** The value of a decimal literal, digits given last first. *)
Fixpoint decimal_value (rev_digits : pystr) : Z :=
  match rev_digits with
  | [] => 0
  | d :: ds => (digit_value d + 10 * decimal_value ds)%Z
  end.

(** The token being read: nothing, a name or a number (last character
    first). *)
Inductive pending := P_none | P_name (acc : pystr) | P_int (acc : pystr).

Definition close (p : pending) (rest : list token) : option (list token) :=
  match p with
  | P_none => Some rest
  | P_name acc =>
    let id := rev acc in
    if is_keyword id then None else Some (T_NAME id :: rest)
  | P_int acc =>
    match rev acc with
    | c :: _ :: _ => if c =? 0x30 then None else Some (T_INT (decimal_value acc) :: rest)
    | _ => Some (T_INT (decimal_value acc) :: rest)
    end
  end.

Definition punct_token (c : N) : option token :=
  if c =? 0x28 then Some T_LPAR
  else if c =? 0x29 then Some T_RPAR
  else if c =? 0x2C then Some T_COMMA
  else None.

Definition starts_with_digit (s : pystr) : bool :=
  match s with
  | c :: _ => ascii_digit c
  | [] => false
  end.

Fixpoint lex (p : pending) (s : pystr) : option (list token) :=
  match s with
  | [] => close p []
  | c :: r =>
    if name_start c then
      match p with
      | P_none => lex (P_name [c]) r
      | P_name acc => lex (P_name (c :: acc)) r
      | P_int _ => None              (* 1e5, 0x1f, 1j, 1if *)
      end
    else if ascii_digit c then
      match p with
      | P_none => lex (P_int [c]) r
      | P_name acc => lex (P_name (c :: acc)) r
      | P_int acc => lex (P_int (c :: acc)) r
      end
    else if c =? 0x2E then
      match p with
      | P_int _ => None              (* a float literal: 1.5, 1. *)
      | _ =>
        if starts_with_digit r then None   (* a float literal: .5 *)
        else ts ← lex P_none r; close p (T_DOT :: ts)
      end
    else
      match punct_token c with
      | Some t => ts ← lex P_none r; close p (t :: ts)
      | None => None
      end
  end.

(** *** Grammar: [primary := atom trailer*], [atom := NAME | INT | ( expr )],
    [trailer := ( [expr (, expr)*] ) | . NAME] *)

Fixpoint parse_expr (fuel : nat) (ts : list token) : option (expr * list token) :=
  match fuel with
  | O => None
  | S fuel =>
    match ts with
    | T_NAME id :: ts => parse_trailers fuel (Name id) ts
    | T_INT n :: ts => parse_trailers fuel (Num n) ts
    | T_LPAR :: ts =>
      match parse_expr fuel ts with
      | Some (e, T_RPAR :: ts) => parse_trailers fuel e ts
      | _ => None
      end
    | _ => None
    end
  end
with parse_trailers (fuel : nat) (e : expr) (ts : list token)
    : option (expr * list token) :=
  match fuel with
  | O => None
  | S fuel =>
    match ts with
    | T_DOT :: T_NAME attr :: ts => parse_trailers fuel (Attribute e attr) ts
    | T_DOT :: _ => None
    | T_LPAR :: T_RPAR :: ts => parse_trailers fuel (Call e ENil) ts
    | T_LPAR :: ts =>
      match parse_args fuel ts with
      | Some (args, ts) => parse_trailers fuel (Call e args) ts
      | None => None
      end
    | _ => Some (e, ts)
    end
  end
with parse_args (fuel : nat) (ts : list token) : option (exprs * list token) :=
  match fuel with
  | O => None
  | S fuel =>
    match parse_expr fuel ts with
    | Some (e, T_RPAR :: ts) => Some (ECons e ENil, ts)
    | Some (e, T_COMMA :: ts) =>
      match parse_args fuel ts with
      | Some (es, ts) => Some (ECons e es, ts)
      | None => None
      end
    | _ => None
    end
  end.

(** Inputs of more than [MAX_SOURCE] characters are left to the host: its
    parser and compiler have limits of their own on nesting depth and on
    the length of a literal. *)
Definition MAX_SOURCE : nat := 128.

Definition parse (s : pystr) : option expr :=
  if (MAX_SOURCE <? length s)%nat then None
  else
    ts ← lex P_none s;
    match parse_expr (2 * length ts + 2) ts with
    | Some (e, []) => Some e
    | _ => None
    end.

(** *** Evaluation *)

Definition BUILTINS_KEY : pystr := py "__builtins__".

Definition NameError (id : pystr) : exn :=
  PyExc "NameError" (py "name '" ++ id ++ py "' is not defined").

Definition NoneType_not_subscriptable : exn :=
  PyExc "TypeError" (py "'NoneType' object is not subscriptable").

(** A name is looked up in the locals, then in the globals, then in the
    builtins of the frame, which are what [globals['__builtins__']] holds:
    the module [builtins] (contents [B]) or, here, [None]. *)
Definition load_name (B g l : dict) (id : pystr) : option (outcome value) :=
  match l !! id with
  | Some v => Some (Return v)
  | None =>
    match g !! id with
    | Some v => Some (Return v)
    | None =>
      match g !! BUILTINS_KEY with
      | Some VBuiltinsModule =>
        Some (match B !! id with
              | Some v => Return v
              | None => Raise (NameError id)
              end)
      | Some VNone => Some (Raise NoneType_not_subscriptable)
      | _ => None
      end
    end
  end.

(** The data attributes of an [int]. *)
Definition int_attr (n : Z) (attr : pystr) : option value :=
  if bool_decide (attr = py "real") then Some (VInt n)
  else if bool_decide (attr = py "imag") then Some (VInt 0)
  else if bool_decide (attr = py "numerator") then Some (VInt n)
  else if bool_decide (attr = py "denominator") then Some (VInt 1)
  else None.

Definition getattr (v : value) (attr : pystr) : option (outcome value) :=
  match v with
  | VInt n => Return <$> int_attr n attr
  | _ => None
  end.

(** Calls of the functions of [safe_dict] on [int] arguments. *)
Definition call (f : value) (args : list value) : option (outcome value) :=
  match f, args with
  | VLambda_lcm, [a; b] => lcm_lambda a b
  | VBuiltin q, [VInt a] =>
    if String.eqb q "abs" then Some (Return (VInt (Z.abs a))) else None
  | VBuiltin q, [VInt a; VInt b] =>
    if String.eqb q "math.gcd" then Some (Return (VInt (Z.gcd a b)))
    else if String.eqb q "max" then Some (Return (VInt (Z.max a b)))
    else if String.eqb q "min" then Some (Return (VInt (Z.min a b)))
    else None
  | _, _ => None
  end.

Section Eval.

(** How a name is resolved. *)
Context (lookup_name : pystr -> option (outcome value)).

(** The function first, then the arguments from left to right, then the
    call; the first exception ends the evaluation. *)
Fixpoint eval_expr (e : expr) : option (outcome value) :=
  match e with
  | Name id => lookup_name id
  | Num n => Some (Return (VInt n))
  | Attribute e attr =>
    r ← eval_expr e;
    match r with
    | Return v => getattr v attr
    | Raise x => Some (Raise x)
    end
  | Call f args =>
    rf ← eval_expr f;
    match rf with
    | Raise x => Some (Raise x)
    | Return fv =>
      ra ← eval_args args;
      match ra with
      | Raise x => Some (Raise x)
      | Return vs => call fv vs
      end
    end
  end
with eval_args (es : exprs) : option (outcome (list value)) :=
  match es with
  | ENil => Some (Return [])
  | ECons e es =>
    r ← eval_expr e;
    match r with
    | Raise x => Some (Raise x)
    | Return v =>
      rs ← eval_args es;
      match rs with
      | Raise x => Some (Raise x)
      | Return vs => Some (Return (v :: vs))
      end
    end
  end.

End Eval.

(** [eval] puts the module [builtins] under [globals['__builtins__']] when
    the key is missing, before it compiles the source. *)
Definition with_builtins (g : dict) : dict :=
  match g !! BUILTINS_KEY with
  | Some _ => g
  | None => <[BUILTINS_KEY := VBuiltinsModule]> g
  end.

Definition eval_fragment (B : dict) (s : pystr) (g l : dict)
    : option (outcome value * dict * dict) :=
  e ← parse s;
  let g' := with_builtins g in
  r ← eval_expr (load_name B g' l) e;
  Some (r, g', l).

End PyFragment.

(** A host whose [eval] follows Python's rules on the fragment. *)
Definition eval_conforms (H : host) : Prop :=
  forall s g l r,
    PyFragment.eval_fragment (builtins_module H) s g l = Some r ->
    builtin_eval H s g l = r.

(** The deepest nesting of parentheses in a string. *)
Fixpoint depth_scan (cur best : nat) (s : pystr) : nat :=
  match s with
  | [] => best
  | c :: r =>
    if c =? 0x28 then depth_scan (S cur) (Nat.max best (S cur)) r
    else if c =? 0x29 then depth_scan (Nat.pred cur) best r
    else depth_scan cur best r
  end.

Definition nesting_depth (s : pystr) : nat := depth_scan 0 0 s.

(** ** A reference host

    One host that conforms, for the examples: Python's rules on the
    fragment, the ASCII part of the character database and a few entries of
    the module [builtins].  Outside the fragment it answers with a
    [SyntaxError]: for parentheses nested [MAXLEVEL] deep that is the answer
    of CPython 3.8 and later; elsewhere it is a stand-in, and no example
    relies on it. *)

Module Reference.

Definition ascii_ucd : unicode_db :=
  {| ucd_decimal := fun _ => false;
     ucd_xid_start := fun _ => false;
     ucd_xid_continue := fun _ => false |}.

Definition builtins : dict :=
  list_to_map
    [ (py "abs", VBuiltin "abs"); (py "eval", VBuiltin "eval");
      (py "exec", VBuiltin "exec"); (py "open", VBuiltin "open");
      (py "__import__", VBuiltin "__import__") ].

Definition MAXLEVEL : nat := 200.

Definition syntax_error (s : pystr) : exn :=
  PyExc "SyntaxError"
    (if (MAXLEVEL <=? nesting_depth s)%nat
     then py "too many nested parentheses (<string>, line 1)"
     else py "invalid syntax (<string>, line 1)").

Definition eval (s : pystr) (g l : dict) : outcome value * dict * dict :=
  match PyFragment.eval_fragment builtins s g l with
  | Some r => r
  | None => (Raise (syntax_error s), PyFragment.with_builtins g, l)
  end.

(** [str] of the values the examples format; other objects by a tag. *)
Definition str (v : value) : pystr :=
  match v with
  | VNone => py "None"
  | VBool b => if b then py "True" else py "False"
  | VInt n => bytes_of_string (pretty n)
  | VStr s => s
  | VObject r => r
  | VFloat _ => py "<float>"
  | VBuiltin q => py "<built-in function>"
  | VLambda_lcm => py "<function <lambda>>"
  | VBuiltinsModule => py "<module 'builtins' (built-in)>"
  end.

(** CPython 3.11 and later refuse to write an [int] of more than 4300
    digits. *)
Definition digits_limit : exn :=
  PyExc "ValueError"
    (py "Exceeds the limit (4300 digits) for integer string conversion; use sys.set_int_max_str_digits() to increase the limit").

Definition raises (v : value) : option exn :=
  match v with
  | VInt n => if (10 ^ 4300 <=? Z.abs n)%Z then Some digits_limit else None
  | _ => None
  end.

Definition python : host :=
  {| ucd := ascii_ucd;
     builtins_module := builtins;
     builtin_eval := eval;
     builtin_str := str;
     str_raises := raises |}.

End Reference.

(** ** FormulaCalculator: the variables tab *)

(** The two line edits of the tab: their texts. *)
Record var_edits := {
  var_name_edit : pystr;
  var_value_edit : pystr
}.

(** [del d[k]] *)
Definition dict_delitem (l : loc) (k : pystr) : M unit :=
  d ← dict_read l; dict_write l (delete k d).

Definition is_empty (s : pystr) : bool :=
  match s with
  | [] => true
  | _ => false
  end.

Definition TITLE_ERROR : pystr := py "错误".

Section VariablesTab.

Context (H : host).

(** The [try] block of [add_variable]; [clear()] empties both edits. *)
Definition add_variable_body (self : FormulaCalculator)
    (var_name var_value : pystr) : M var_edits :=
  value ← evaluate H (evaluator self) var_value (Some (variables self));
  dict_setitem (variables self) var_name value;;
  update_var_display H self;;
  emit (StatusMessage (py "变量 " ++ var_name ++ py " 添加成功"));;
  mret {| var_name_edit := []; var_value_edit := [] |}.

(** [add_variable], on the texts of the two edits; it returns their texts
    afterwards. *)
Definition add_variable (self : FormulaCalculator) (edits : var_edits) : M var_edits :=
  let var_name := strip (var_name_edit edits) in
  let var_value := strip (var_value_edit edits) in
  if is_empty var_name || is_empty var_value then
    emit (WarningBox TITLE_ERROR (py "变量名和值不能为空"));; mret edits
  else if negb (isidentifier (ucd H) var_name) then
    emit (WarningBox TITLE_ERROR (py "无效的变量名"));; mret edits
  else
    try_except_ValueError
      (add_variable_body self var_name var_value)
      (fun e => emit (WarningBox TITLE_ERROR (exn_str e));; mret edits).

(** [delete_variable], on the texts of the two edits. *)
Definition delete_variable (self : FormulaCalculator) (edits : var_edits) : M var_edits :=
  let var_name := strip (var_name_edit edits) in
  if is_empty var_name then
    emit (WarningBox TITLE_ERROR (py "请输入要删除的变量名"));; mret edits
  else
    vars ← dict_read (variables self);
    if bool_decide (is_Some (vars !! var_name)) then
      dict_delitem (variables self) var_name;;
      update_var_display H self;;
      emit (StatusMessage (py "变量 " ++ var_name ++ py " 已删除"));;
      mret {| var_name_edit := []; var_value_edit := var_value_edit edits |}
    else
      emit (WarningBox TITLE_ERROR (py "变量 " ++ var_name ++ py " 不存在"));;
      mret edits.

(** *** The text of [update_var_display] *)

Definition var_line (max_len : nat) (item : pystr * value) : pystr :=
  ljust max_len item.1 ++ py " = " ++ builtin_str H item.2 ++ [LF].

Definition VAR_HEADER : pystr := py "当前定义的变量:" ++ [LF].

(** What [update_var_display] writes into [var_display], every [str]
    having returned. *)
Definition var_display_text (vars : dict) : pystr :=
  if bool_decide (vars = ∅) then py "没有定义变量"
  else
    let max_len := max_list (length <$> (map_to_list vars).*1) in
    foldl (fun var_text item => var_text ++ var_line max_len item)
      VAR_HEADER (sorted_items vars).

End VariablesTab.

(** ** FormulaCalculator: the buttons of the calculation tab *)

Definition math_funcs : list pystr :=
  map py [ "sqrt()"; "sin()"; "cos()"; "tan()"; "log()"; "exp()" ]%string.

Definition constants : list pystr := map py [ "π"; "e"; "τ" ]%string.

Definition operators : list pystr :=
  map py [ "+"; "-"; "*"; "/"; "^"; "("; ")"; "=" ]%string.

Definition const_map : gmap pystr pystr :=
  list_to_map [ (py "π", py "pi"); (py "e", py "e"); (py "τ", py "tau") ].

Definition op_map : gmap pystr pystr :=
  list_to_map [ (py "^", py "**"); (py "=", py "==") ].

(** The text each button hands to [input_area.insert]. *)
Definition insert_function (func : pystr) : pystr := func.

Definition insert_constant (const : pystr) : pystr :=
  default const (const_map !! const).

Definition insert_operator (op : pystr) : pystr :=
  default op (op_map !! op).

(** ** FormulaCalculator: the history *)

Module HistoryTab.

(** The history list, the texts of the two read-only areas, the autosave
    box, the status line, and what [settings.value("history", ...)] finds
    stored ([None] when the key is not set). *)
Record state := State {
  history : list pystr;
  result_area : pystr;
  history_list : pystr;
  autosave_check : bool;
  status : option pystr;
  stored_history : option (list pystr)
}.

Definition NEWLINE : pystr := [LF].

Definition load_history (st : state) : state :=
  let history := default [] (stored_history st) in
  match history with
  | _ :: _ =>
    State history (join NEWLINE history) (join NEWLINE history)
      (autosave_check st) (status st) (stored_history st)
  | [] =>
    State [] (result_area st) (history_list st)
      (autosave_check st) (status st) (stored_history st)
  end.

Definition save_history (st : state) : state :=
  if negb (autosave_check st) then st
  else State (history st) (result_area st) (history_list st)
         (autosave_check st) (status st) (Some (history st)).

Definition clear_history (st : state) : state :=
  let st := State [] (result_area st) [] (autosave_check st) (status st)
              (stored_history st) in
  let st := save_history st in
  State (history st) (result_area st) (history_list st) (autosave_check st)
    (Some (py "历史记录已清除")) (stored_history st).

Definition autosave (st : state) : state :=
  if autosave_check st then save_history st else st.

End HistoryTab.

(** ** Vocabulary of the statements *)

Definition nonspace (c : N) : bool := negb (isspace c).

(** The sanitizer as the specification words it: drop every whitespace
    character, turn the two full-width parentheses into ASCII ones, keep
    every other character as it is. *)
Definition to_ascii_paren (c : N) : N :=
  if c =? FULLWIDTH_LPAREN then 0x28
  else if c =? FULLWIDTH_RPAREN then 0x29
  else c.

Definition sanitize_spec (raw : pystr) : pystr :=
  map to_ascii_paren (List.filter nonspace raw).

(** The globals [evaluate] hands to [eval]. *)
Definition eval_globals : dict := {[ py "__builtins__" := VNone ]}.

(** The contents of the variable table passed to [evaluate]. *)
Definition variables_of (variables : option loc) (w : world) : dict :=
  match variables with
  | Some l => deref l w
  | None => ∅
  end.

(** The variable table, when one is passed, is an object of the heap. *)
Definition live (variables : option loc) (w : world) : Prop :=
  match variables with
  | Some l => (l < length (heap w))%nat
  | None => True
  end.

(** Resolution of a name in one dictionary and nowhere else. *)
Definition scope_only (scope : dict) (id : pystr) : option (outcome value) :=
  Some (match scope !! id with
        | Some v => Return v
        | None => Raise PyFragment.NoneType_not_subscriptable
        end).

(** Whether an expression contains an attribute reference. *)
Fixpoint uses_attribute (e : PyFragment.expr) : bool :=
  match e with
  | PyFragment.Name _ | PyFragment.Num _ => false
  | PyFragment.Attribute _ _ => true
  | PyFragment.Call f args => uses_attribute f || uses_attribute_args args
  end
with uses_attribute_args (es : PyFragment.exprs) : bool :=
  match es with
  | PyFragment.ENil => false
  | PyFragment.ECons e es => uses_attribute e || uses_attribute_args es
  end.

(** The program after start-up: the window's evaluator and its empty
    variable table, on a heap that holds nothing else. *)
Definition started : outcome FormulaCalculator * world :=
  FormulaCalculator_init (World [] [] []).

Definition window : FormulaCalculator :=
  {| evaluator := {| safe_dict := 0%nat |}; variables := 1%nat |}.

Definition world0 : world := World [safe_dict_init; ∅] [] [].

(** [1] inside [n] pairs of parentheses. *)
Definition nested (n : nat) : pystr :=
  replicate n 0x28 ++ py "1" ++ replicate n 0x29.

(** What [calculate] does when the assignment target is no identifier:
    nothing but the warning and the status line. *)
Definition invalid_name_failure (w : world) : outcome unit * world :=
  (Return tt,
   World (heap w) (eval_log w)
     (ui_log w ++ [WarningBox (py "计算错误") (py "无效的变量名");
                   StatusMessage (py "计算失败")])).

(** A statement that touches the window only: whatever its outcome, the
    dictionaries and the record of the calls to [eval] are as before. *)
Definition display_only {A} (m : M A) : Prop :=
  forall w, heap (m w).2 = heap w /\ eval_log (m w).2 = eval_log w.

(** The expressions handed to [eval], in order. *)
Definition evaluated (w : world) : list pystr := map (fun c => c.1.1) (eval_log w).

(** A string that does not start with whitespace. *)
Definition starts_nonspace (s : pystr) : Prop :=
  match s with
  | [] => True
  | c :: _ => isspace c = false
  end.

(** * Properties *)

(** ** Strings *)

Example split_example : split (py "  ab  c d ") = [py "ab"; py "c"; py "d"].
Proof. reflexivity. Qed.

Example strip_example : strip (py "  a = 5 ") = py "a = 5".
Proof. reflexivity. Qed.

Example split_once_example :
  split_once EQUALS (py "a=b=c") = (py "a", Some (py "b=c")).
Proof. reflexivity. Qed.

Example sanitize_input_example :
  sanitize_input (py " Sin （ pi / 2 ） ") = py "Sin(pi/2)".
Proof. reflexivity. Qed.

Lemma join_nil_cons (p : pystr) (ps : list pystr) :
  join [] (p :: ps) = p ++ join [] ps.
Proof. destruct ps; simpl; [by rewrite app_nil_r | done]. Qed.

Lemma join_flush (w : pystr) (out : list pystr) :
  join [] (flush w out) = rev w ++ join [] out.
Proof.
  destruct w as [|c w]; [done|].
  unfold flush. by rewrite join_nil_cons.
Qed.

Lemma join_split_ws (w s : pystr) :
  join [] (split_ws w s) = rev w ++ List.filter nonspace s.
Proof.
  revert w. induction s as [|c r IH]; intros w; simpl.
  - by rewrite join_flush.
  - unfold nonspace at 1. destruct (isspace c); simpl.
    + by rewrite join_flush, IH.
    + rewrite IH. simpl. by rewrite <- app_assoc.
Qed.

(** [''.join(s.split())] keeps exactly the non-whitespace characters. *)
Lemma join_split (s : pystr) : join [] (split s) = List.filter nonspace s.
Proof. unfold split. by rewrite join_split_ws. Qed.

Lemma replace_twice (s : pystr) :
  replace FULLWIDTH_RPAREN 0x29 (replace FULLWIDTH_LPAREN 0x28 s) = map to_ascii_paren s.
Proof.
  unfold replace. rewrite map_map. apply map_ext. intros c.
  unfold to_ascii_paren. by destruct (c =? FULLWIDTH_LPAREN) eqn:E.
Qed.

Lemma sanitize_input_eq (raw : pystr) : sanitize_input raw = sanitize_spec raw.
Proof. unfold sanitize_input, sanitize_spec. by rewrite replace_twice, join_split. Qed.

Lemma to_ascii_paren_nonspace (c : N) :
  isspace c = false -> isspace (to_ascii_paren c) = false.
Proof.
  intros Hc. unfold to_ascii_paren. destruct (c =? FULLWIDTH_LPAREN); [done|].
  by destruct (c =? FULLWIDTH_RPAREN).
Qed.

(** Nothing the sanitizer returns is whitespace. *)
Lemma sanitize_input_nonspace (raw : pystr) :
  Forall (fun c => isspace c = false) (sanitize_input raw).
Proof.
  rewrite sanitize_input_eq. unfold sanitize_spec.
  apply Forall_forall. intros c Hc. apply list_elem_of_In in Hc.
  apply in_map_iff in Hc as (c0 & <- & Hc0).
  apply filter_In in Hc0 as [_ Hc0].
  apply to_ascii_paren_nonspace. unfold nonspace in Hc0. by destruct (isspace c0).
Qed.

(** A string with no whitespace and no full-width parenthesis is kept. *)
Lemma sanitize_spec_clean (raw : pystr) :
  Forall (fun c => isspace c = false /\ c <> FULLWIDTH_LPAREN /\ c <> FULLWIDTH_RPAREN) raw ->
  sanitize_spec raw = raw.
Proof.
  unfold sanitize_spec. induction 1 as [|c r (Hs & Hl & Hr) _ IH]; [done|].
  simpl. unfold nonspace at 1. rewrite Hs. simpl. rewrite IH. f_equal.
  unfold to_ascii_paren.
  apply N.eqb_neq in Hl, Hr. by rewrite Hl, Hr.
Qed.

(** C8: [sanitize_input] is a total function on strings that removes every
    whitespace character wherever it stands, replaces the full-width
    parentheses by the ASCII ones and changes nothing else: it returns
    [sanitize_spec raw], returns no whitespace, maps every character other
    than the two glyphs to itself (so case is kept), and returns a string
    free of whitespace and of the two glyphs as it is. *)
Theorem C8_sanitize_input_spec (raw : pystr) :
  sanitize_input raw = sanitize_spec raw
  /\ Forall (fun c => isspace c = false) (sanitize_input raw)
  /\ (forall c, c <> FULLWIDTH_LPAREN -> c <> FULLWIDTH_RPAREN -> to_ascii_paren c = c)
  /\ (Forall (fun c => isspace c = false /\ c <> FULLWIDTH_LPAREN /\ c <> FULLWIDTH_RPAREN) raw ->
      sanitize_input raw = raw).
Proof.
  split; [apply sanitize_input_eq|].
  split; [apply sanitize_input_nonspace|].
  split.
  - intros c Hl Hr. unfold to_ascii_paren.
    apply N.eqb_neq in Hl, Hr. by rewrite Hl, Hr.
  - intros Hclean. rewrite sanitize_input_eq. by apply sanitize_spec_clean.
Qed.

(** ** The validator *)

Section Validator.

Context (U : unicode_db).

Lemma safe_char_LF : safe_char U LF = false.
Proof. reflexivity. Qed.

Example is_safe_expression_empty : is_safe_expression U [] = false.
Proof. reflexivity. Qed.

Example is_safe_expression_bracket : is_safe_expression U (py "a[0]") = false.
Proof. reflexivity. Qed.

Example is_safe_expression_underscore : is_safe_expression U (py "a_b") = false.
Proof. reflexivity. Qed.

Example is_safe_expression_equals : is_safe_expression U (py "=5") = true.
Proof. reflexivity. Qed.

(** What the pattern accepts: a non-empty run of the class, optionally
    followed by one final newline. *)
Lemma match_plus_dollar_spec (s : pystr) :
  match_plus_dollar U s = true <->
  exists body, body <> [] /\ forallb (safe_char U) body = true
               /\ (s = body \/ s = body ++ [LF]).
Proof.
  induction s as [|c rest IH]; simpl.
  - split; [done|]. intros (body & Hne & _ & [E|E]).
    + by subst.
    + by destruct body.
  - rewrite andb_true_iff, orb_true_iff, IH. split.
    + intros [Hc [(body & Hne & Hall & Hs) | Hd]].
      * exists (c :: body). simpl. rewrite Hc, Hall.
        repeat split; [done|]. destruct Hs as [-> | ->]; auto.
      * exists [c]. simpl. rewrite Hc. repeat split; [done|].
        destruct rest as [|d [|? ?]]; simpl in Hd; try done; [by left|].
        apply N.eqb_eq in Hd as ->. by right.
    + intros (body & Hne & Hall & Hs).
      destruct body as [|b body]; [done|]. simpl in Hall.
      apply andb_true_iff in Hall as [Hb Hall].
      assert (b = c) as -> by (destruct Hs as [Hs|Hs]; by inversion Hs).
      split; [done|].
      destruct body as [|b' body].
      * right. destruct Hs as [Hs|Hs]; inversion Hs; subst; done.
      * left. exists (b' :: body). repeat split; [done|done|].
        destruct Hs as [Hs|Hs]; inversion Hs; auto.
  Qed.

(** On a string without whitespace the validator is the plain character
    test. *)
Lemma is_safe_expression_nonspace (s : pystr) :
  Forall (fun c => isspace c = false) s ->
  is_safe_expression U s = (negb (bool_decide (s = [])) && forallb (safe_char U) s).
Proof.
  unfold is_safe_expression. induction s as [|c rest IH]; [done|].
  intros Hs. inversion Hs as [|? ? Hc Hrest]; subst. simpl.
  destruct (safe_char U c); [simpl|done].
  rewrite (IH Hrest).
  destruct rest as [|d rest']; [done|]. simpl.
  inversion Hrest as [|? ? Hd _]; subst.
  destruct rest' as [|? ?]; simpl.
  - destruct (d =? LF) eqn:E.
    + apply N.eqb_eq in E. subst d. done.
    + by rewrite orb_false_r.
  - by rewrite orb_false_r.
Qed.

(** A character outside the class in a whitespace-free string: rejected. *)
Lemma is_safe_expression_rejects (s : pystr) (c : N) :
  Forall (fun c => isspace c = false) s ->
  In c s -> safe_char U c = false ->
  is_safe_expression U s = false.
Proof.
  intros Hs Hin Hc. rewrite (is_safe_expression_nonspace _ Hs).
  apply andb_false_iff. right.
  apply not_true_is_false. intros Hall.
  rewrite forallb_forall in Hall. specialize (Hall _ Hin). congruence.
Qed.

End Validator.

(** ** Running [evaluate] *)

Arguments py : simpl never.
Arguments MSG_PREFIX : simpl never.
Arguments MSG_UNSAFE : simpl never.

Lemma bind_run {A B} (m : M A) (f : A -> M B) (w : world) :
  (m ≫= f) w =
  match m w with
  | (Return a, w') => f a w'
  | (Raise e, w') => (Raise e, w')
  end.
Proof. reflexivity. Qed.

Lemma deref_app_l (l : loc) (h : list dict) (extra : list dict) el ul :
  (l < length h)%nat ->
  deref l (World (h ++ extra) el ul) = deref l (World h el ul).
Proof. intros Hl. unfold deref. simpl. by rewrite lookup_app_l. Qed.

Lemma deref_middle (h : list dict) (d : dict) (extra : list dict) el ul :
  deref (length h) (World (h ++ d :: extra) el ul) = d.
Proof. unfold deref. simpl. by rewrite list_lookup_middle. Qed.

Lemma insert_middle (h : list dict) (d d' : dict) (extra : list dict) :
  <[length h := d']> (h ++ d :: extra) = h ++ d' :: extra.
Proof.
  replace (length h) with (length h + 0)%nat by lia.
  by rewrite insert_app_r.
Qed.

Lemma evaluate_rejected (H : host) self expr variables w :
  is_safe_expression (ucd H) (sanitize_input expr) = false ->
  evaluate H self expr variables w = (Raise (ValueError (MSG_PREFIX ++ MSG_UNSAFE)), w).
Proof.
  intros Hs. unfold evaluate, try_except. rewrite Hs. reflexivity.
Qed.

(** [eval_dict = self.safe_dict.copy()] and the conditional [update]: one new
    dictionary, holding the variables over the built-in entries. *)
Ltac run :=
  repeat first
    [ rewrite bind_run
    | progress (unfold dict_copy, dict_truthy, dict_update, dict_read,
                       dict_new, dict_write, set_heap, skip)
    | progress (cbn [heap eval_log ui_log mret M_ret]) ].

Lemma merge_run (self : SafeEvaluator) (variables : option loc) (w : world) :
  live variables w ->
  (eval_dict ← dict_copy (safe_dict self);
   (match variables return M unit with
    | None => skip
    | Some l => nonempty ← dict_truthy l; when nonempty (dict_update eval_dict l)
    end);;
   mret eval_dict) w =
  (Return (length (heap w)),
   set_heap (heap w ++ [variables_of variables w ∪ deref (safe_dict self) w]) w).
Proof.
  intros Hlive. destruct w as [h el ul].
  destruct variables as [l|]; cbn [variables_of live heap] in *; run.
  - rewrite (deref_app_l l h _ _ _ Hlive).
    case_bool_decide as Hempty; cbn [negb when]; run.
    + rewrite Hempty, (left_id_L ∅ (∪)). reflexivity.
    + rewrite (deref_app_l l h _ _ _ Hlive).
      rewrite (deref_middle h _ []).
      rewrite insert_middle. reflexivity.
  - rewrite (left_id_L ∅ (∪)). reflexivity.
Qed.

Lemma insert_two (h : list dict) (dl dg dl' dg' : dict) :
  <[length h := dl']> (<[S (length h) := dg']> (h ++ [dl; dg])) = h ++ [dl'; dg'].
Proof.
  replace (S (length h)) with (length h + 1)%nat by lia.
  rewrite insert_app_r. cbn [insert list_insert]. apply insert_middle.
Qed.

Lemma call_eval_run (H : host) (s : pystr) (h : list dict) (dl dg : dict) el ul :
  let r := builtin_eval H s dg dl in
  call_eval H s (S (length h)) (length h) (World (h ++ [dl; dg]) el ul) =
  (r.1.1, World (h ++ [r.2; r.1.2]) (el ++ [(s, dg, dl)]) ul).
Proof.
  unfold call_eval. cbn [heap eval_log ui_log].
  rewrite deref_middle.
  replace (deref (S (length h)) (World (h ++ [dl; dg]) el ul)) with dg.
  2: { pose proof (deref_middle (h ++ [dl]) dg [] el ul) as Hd.
       rewrite length_app, <- app_assoc in Hd. cbn [length app] in Hd.
       replace (length h + 1)%nat with (S (length h)) in Hd by lia. by rewrite Hd. }
  destruct (builtin_eval H s dg dl) as [[r dg'] dl']. cbn [fst snd].
  by rewrite insert_two.
Qed.

Lemma evaluate_accepted (H : host) self expr variables w :
  live variables w ->
  is_safe_expression (ucd H) (sanitize_input expr) = true ->
  let s := sanitize_input expr in
  let scope := variables_of variables w ∪ deref (safe_dict self) w in
  let r := builtin_eval H s eval_globals scope in
  evaluate H self expr variables w =
   (match r.1.1 with
    | Return v => Return v
    | Raise e => Raise (ValueError (MSG_PREFIX ++ exn_str e))
    end,
    World (heap w ++ [r.2; r.1.2]) (eval_log w ++ [(s, eval_globals, scope)]) (ui_log w)).
Proof.
  intros Hlive Hs. unfold evaluate, try_except. rewrite Hs. cbn [negb].
  pose proof (merge_run self variables w Hlive) as Hm.
  rewrite bind_run in Hm. rewrite bind_run.
  destruct (dict_copy (safe_dict self) w) as [[eval_dict|e] w1] eqn:Hcopy.
  2: { discriminate Hm. }
  rewrite bind_run in Hm. rewrite bind_run.
  match goal with
  | |- context [match ?m w1 with _ => _ end] => destruct (m w1) as [[[]|e] w2] eqn:Hupd
  end.
  2: { discriminate Hm. }
  cbn [mret M_ret] in Hm. injection Hm as -> ->.
  destruct w as [h el ul]. run.
  rewrite length_app, <- app_assoc. cbn [length app].
  replace (length h + 1)%nat with (S (length h)) by lia.
  fold eval_globals. rewrite call_eval_run. cbn zeta.
  destruct (builtin_eval H _ _ _) as [[[v|e] dg'] dl']; reflexivity.
Qed.

(** ** Statements that touch the window only *)

Create HintDb display.

Lemma display_only_ret {A} (a : A) : display_only (mret a : M A).
Proof. by intros w. Qed.

Lemma display_only_raise {A} (e : exn) : display_only (raise e : M A).
Proof. by intros w. Qed.

Lemma display_only_emit (e : ui_event) : display_only (emit e).
Proof. by intros w. Qed.

Lemma display_only_bind {A B} (m : M A) (f : A -> M B) :
  display_only m -> (forall a, display_only (f a)) -> display_only (m ≫= f).
Proof.
  intros Hm Hf w. rewrite bind_run. specialize (Hm w).
  destruct (m w) as [[a|e] w1]; cbn [snd] in *; [|done].
  destruct (Hf a w1) as [-> ->]. done.
Qed.

Lemma display_only_try {A} (m : M A) (handler : exn -> M A) :
  display_only m -> (forall e, display_only (handler e)) ->
  display_only (try_except_ValueError m handler).
Proof.
  intros Hm Hh w. unfold try_except_ValueError, try_except. specialize (Hm w).
  destruct (m w) as [[a|e] w1]; cbn [snd] in *; [done|].
  destruct (String.eqb (exn_class e) "ValueError"); [|done].
  destruct (Hh e w1) as [-> ->]. done.
Qed.

#[local] Hint Resolve display_only_ret display_only_raise display_only_emit : display.
#[local] Hint Extern 2 (display_only (_ ≫= _)) =>
  apply display_only_bind; [|intros ?] : display.
#[local] Hint Extern 2 (display_only (try_except_ValueError _ _)) =>
  apply display_only_try; [|intros ?] : display.

Lemma display_only_format_value (H : host) (v : value) :
  display_only (format_value H v).
Proof. unfold format_value. destruct (str_raises H v); auto with display. Qed.

#[local] Hint Resolve display_only_format_value : display.

Lemma display_only_format_items (H : host) (items : list (pystr * value)) :
  display_only (format_items H items).
Proof.
  induction items as [|item items IH]; cbn [format_items]; unfold skip;
    auto with display.
Qed.

#[local] Hint Resolve display_only_format_items : display.

Lemma display_only_update_var_display (H : host) (self : FormulaCalculator) :
  display_only (update_var_display H self).
Proof.
  unfold update_var_display. apply display_only_bind; [by intros w|].
  intros vars. destruct (bool_decide (vars = ∅)); unfold skip; auto with display.
Qed.

Lemma display_only_calculate_done : display_only calculate_done.
Proof. unfold calculate_done. auto with display. Qed.

Lemma display_only_calculate_failed (e : exn) : display_only (calculate_failed e).
Proof. unfold calculate_failed. auto with display. Qed.

#[local] Hint Resolve display_only_update_var_display display_only_calculate_done
  display_only_calculate_failed : display.

(** What follows a statement does not show in the dictionaries or in the
    record of [eval] when it touches the window only. *)
Lemma bind_store {A B} (m : M A) (f : A -> M B) (w : world) :
  (forall a, display_only (f a)) ->
  heap ((m ≫= f) w).2 = heap (m w).2 /\ eval_log ((m ≫= f) w).2 = eval_log (m w).2.
Proof.
  intros Hf. rewrite bind_run. destruct (m w) as [[a|e] w1]; cbn [snd]; [|done].
  apply Hf.
Qed.

Lemma try_store {A} (m : M A) (handler : exn -> M A) (w : world) :
  (forall e, display_only (handler e)) ->
  heap (try_except_ValueError m handler w).2 = heap (m w).2
  /\ eval_log (try_except_ValueError m handler w).2 = eval_log (m w).2.
Proof.
  intros Hh. unfold try_except_ValueError, try_except.
  destruct (m w) as [[a|e] w1]; cbn [snd]; [done|].
  destruct (String.eqb (exn_class e) "ValueError"); [|done].
  apply Hh.
Qed.

(** The dictionaries and the record of [eval] after the assignment branch,
    by the outcome of [evaluate]: the value is stored before anything is
    shown. *)
Lemma calculate_assignment_store (H : host) (self : FormulaCalculator)
    (var_name var_expr : pystr) (w : world) :
  isidentifier (ucd H) var_name = true ->
  let r := evaluate H (evaluator self) var_expr (Some (variables self)) w in
  let out := calculate_assignment H self var_name var_expr w in
  heap out.2
  = match r.1 with
    | Return v =>
      <[variables self := <[var_name := v]> (deref (variables self) r.2)]> (heap r.2)
    | Raise _ => heap r.2
    end
  /\ eval_log out.2 = eval_log r.2.
Proof.
  intros Hid r out. subst r out. unfold calculate_assignment.
  rewrite Hid. cbn [negb]. rewrite bind_run.
  destruct (evaluate H _ _ _ w) as [[v|x] w1]; cbn [fst snd]; [|done].
  match goal with
  | |- context [(?m ≫= ?f) w1] =>
    destruct (bind_store m f w1) as [-> ->]; [intros []; auto 10 with display|]
  end.
  done.
Qed.

(** The same for the whole [try] statement of [calculate]. *)
Lemma calculate_try_store (body : M unit) (w : world) :
  heap (try_except_ValueError (body;; calculate_done) calculate_failed w).2
  = heap (body w).2
  /\ eval_log (try_except_ValueError (body;; calculate_done) calculate_failed w).2
     = eval_log (body w).2.
Proof.
  destruct (try_store (body;; calculate_done) calculate_failed w) as [-> ->];
    [auto with display|].
  apply bind_store. auto with display.
Qed.

Lemma started_eq : started = (Return window, world0).
Proof. reflexivity. Qed.

Lemma reference_conforms : eval_conforms Reference.python.
Proof.
  intros s g l r Hr. cbn [builtin_eval builtins_module Reference.python] in *.
  unfold Reference.eval. by rewrite Hr.
Qed.

(** ** The validator in front of [eval] *)

(** C4, at the input ["1\n"]: the pattern's [$] also matches before a final
    newline, so the validator accepts a string whose last character is a
    newline, a character outside its class. *)
Theorem C4_trailing_newline_accepted (U : unicode_db) :
  is_safe_expression U (py "1" ++ [LF]) = true /\ safe_char U LF = false.
Proof. split; reflexivity. Qed.

(** C2, as written, fails: the sanitizer runs before the validator, so an
    input with a space (a character outside the class) is evaluated. *)
Lemma C2_counterexample :
  In 0x20 (py "lcm(4, 6)")
  /\ safe_char (ucd Reference.python) 0x20 = false
  /\ (evaluate Reference.python (evaluator window) (py "lcm(4, 6)")
        (Some (variables window)) world0).1 = Return (VInt 12).
Proof.
  split; [vm_compute; tauto|]. split; [reflexivity|]. vm_compute. reflexivity.
Qed.

(** C2, amended: when the sanitized input holds a character outside the
    class, [evaluate] raises the validation error and leaves the state as it
    was: no dictionary is made and [eval] is not called. *)
Theorem C2_unsafe_input_rejected (H : host) (self : SafeEvaluator) (raw : pystr)
    (variables : option loc) (w : world) (c : N) :
  In c (sanitize_input raw) ->
  safe_char (ucd H) c = false ->
  evaluate H self raw variables w = (Raise (ValueError (MSG_PREFIX ++ MSG_UNSAFE)), w).
Proof.
  intros Hin Hc. apply evaluate_rejected.
  eapply is_safe_expression_rejects; eauto using sanitize_input_nonspace.
Qed.

Lemma C2_unsafe_input_rejected_witness :
  evaluate Reference.python (evaluator window) (py "2 # 3") None world0
  = (Raise (ValueError (MSG_PREFIX ++ MSG_UNSAFE)), world0).
Proof.
  apply (C2_unsafe_input_rejected Reference.python _ _ _ _ 0x23).
  - vm_compute. tauto.
  - reflexivity.
Defined.

(** ** The caller's variable table *)

(** Every dictionary alive before a call of [evaluate] holds the same
    entries after it. *)
Lemma evaluate_frame (H : host) (self : SafeEvaluator) (expr : pystr)
    (variables : option loc) (w : world) (l : loc) (d : dict) :
  live variables w ->
  heap w !! l = Some d ->
  heap (evaluate H self expr variables w).2 !! l = Some d.
Proof.
  intros Hlive Hl.
  destruct (is_safe_expression (ucd H) (sanitize_input expr)) eqn:Hs.
  - rewrite (evaluate_accepted H self expr variables w Hlive Hs).
    cbn [snd heap]. by apply lookup_app_l_Some.
  - by rewrite (evaluate_rejected H self expr variables w Hs).
Qed.

(** C6: a call of [evaluate] leaves the variable table it is given with the
    entries it had, whether the call returns a value or raises. *)
Theorem C6_evaluate_preserves_variables (H : host) (self : SafeEvaluator)
    (expr : pystr) (vars : loc) (w : world) (d : dict) :
  heap w !! vars = Some d ->
  heap (evaluate H self expr (Some vars) w).2 !! vars = Some d.
Proof.
  intros Hd. apply evaluate_frame; [|done].
  cbn [live]. by eapply lookup_lt_Some.
Qed.

Lemma C6_evaluate_preserves_variables_witness :
  heap (evaluate Reference.python (evaluator window) (py "lcm(4,6)")
          (Some (variables window)) world0).2 !! variables window = Some ∅.
Proof.
  apply (C6_evaluate_preserves_variables Reference.python). reflexivity.
Defined.

(** ** Name resolution inside [eval] *)

Scheme expr_mut_ind := Induction for PyFragment.expr Sort Prop
  with exprs_mut_ind := Induction for PyFragment.exprs Sort Prop.
Combined Scheme expr_exprs_ind from expr_mut_ind, exprs_mut_ind.

(** The value of an expression depends on the names only through the way
    they are resolved. *)
Lemma eval_expr_ext (f g : pystr -> option (outcome value)) :
  (forall id, f id = g id) ->
  (forall e, PyFragment.eval_expr f e = PyFragment.eval_expr g e)
  /\ (forall es, PyFragment.eval_args f es = PyFragment.eval_args g es).
Proof.
  intros Hfg. apply expr_exprs_ind; cbn [PyFragment.eval_expr PyFragment.eval_args].
  - apply Hfg.
  - done.
  - intros e IH attr. by rewrite IH.
  - intros fn IHf args IHa. by rewrite IHf, IHa.
  - done.
  - intros e IHe es IHes. by rewrite IHe, IHes.
Qed.

Lemma with_builtins_eval_globals :
  PyFragment.with_builtins eval_globals = eval_globals.
Proof. reflexivity. Qed.

(** With [{'__builtins__': None}] as globals and a scope that has the key
    [__builtins__], a name resolves in the scope or not at all, whatever the
    module [builtins] holds. *)
Lemma load_name_scope_only (B scope : dict) (id : pystr) :
  is_Some (scope !! PyFragment.BUILTINS_KEY) ->
  PyFragment.load_name B eval_globals scope id = scope_only scope id.
Proof.
  intros Hkey. unfold PyFragment.load_name, scope_only.
  destruct (scope !! id) as [v|] eqn:Hid; [done|].
  assert (id <> PyFragment.BUILTINS_KEY) as Hne.
  { intros ->. rewrite Hid in Hkey. by destruct Hkey. }
  unfold eval_globals. fold PyFragment.BUILTINS_KEY.
  rewrite lookup_singleton_ne by done.
  by rewrite lookup_singleton_eq.
Qed.

Lemma merged_scope_has_builtins_key (vars : dict) :
  is_Some ((vars ∪ safe_dict_init) !! PyFragment.BUILTINS_KEY).
Proof.
  destruct (vars !! PyFragment.BUILTINS_KEY) as [v|] eqn:Hv.
  - exists v. by apply lookup_union_Some_l.
  - exists VNone. rewrite lookup_union_r by done. reflexivity.
Qed.

Lemma deref_Some (l : loc) (w : world) (d : dict) :
  heap w !! l = Some d -> deref l w = d.
Proof. intros Hl. unfold deref. by rewrite Hl. Qed.

(** A conforming host on an input of the fragment. *)
Lemma conforming_eval (H : host) (s : pystr) (e : PyFragment.expr)
    (scope : dict) (r : outcome value) :
  eval_conforms H ->
  PyFragment.parse s = Some e ->
  PyFragment.eval_expr
    (PyFragment.load_name (builtins_module H) eval_globals scope) e = Some r ->
  builtin_eval H s eval_globals scope = (r, eval_globals, scope).
Proof.
  intros Hconf Hparse Heval. apply Hconf.
  unfold PyFragment.eval_fragment. rewrite Hparse. cbn [mbind option_bind].
  rewrite with_builtins_eval_globals, Heval. reflexivity.
Qed.

(** [evaluate] on an input of the fragment, with a conforming host. *)
Lemma evaluate_conforming (H : host) (self : SafeEvaluator) (raw : pystr)
    (vars : loc) (w : world) (dv : dict) (e : PyFragment.expr) (r : outcome value) :
  eval_conforms H ->
  heap w !! safe_dict self = Some safe_dict_init ->
  heap w !! vars = Some dv ->
  is_safe_expression (ucd H) (sanitize_input raw) = true ->
  PyFragment.parse (sanitize_input raw) = Some e ->
  PyFragment.eval_expr (scope_only (dv ∪ safe_dict_init)) e = Some r ->
  (evaluate H self raw (Some vars) w).1 =
  match r with
  | Return v => Return v
  | Raise x => Raise (ValueError (MSG_PREFIX ++ exn_str x))
  end.
Proof.
  intros Hconf Hsd Hdv Hs Hparse Heval.
  assert (live (Some vars) w) as Hlive by (cbn [live]; by eapply lookup_lt_Some).
  rewrite (evaluate_accepted H self raw (Some vars) w Hlive Hs).
  cbn [variables_of fst]. rewrite (deref_Some _ _ _ Hsd), (deref_Some _ _ _ Hdv).
  rewrite (conforming_eval H _ e _ r Hconf Hparse); [done|].
  rewrite <- Heval. apply eval_expr_ext. intros id.
  apply load_name_scope_only, merged_scope_has_builtins_key.
Qed.




(** ** Shadowing *)

(** C5: the scope [evaluate] hands to [eval] holds, for every name of the
    caller's variable table, the caller's value, also where the built-in
    table has an entry of that name; so with a conforming host
    [evaluate("e", {e: 10})] is [10], while the built-in [e] is the float
    [math.e]. *)
Theorem C5_variables_shadow_builtins (H : host) (self : SafeEvaluator)
    (expr : pystr) (vars : loc) (w : world) (dv : dict) :
  heap w !! vars = Some dv ->
  is_safe_expression (ucd H) (sanitize_input expr) = true ->
  (exists scope,
      eval_log (evaluate H self expr (Some vars) w).2
        = eval_log w ++ [(sanitize_input expr, eval_globals, scope)]
      /\ forall name v, dv !! name = Some v -> scope !! name = Some v)
  /\ safe_dict_init !! py "e" = Some (VFloat math_e)
  /\ (eval_conforms H -> expr = py "e" -> dv !! py "e" = Some (VInt 10) ->
      (evaluate H self expr (Some vars) w).1 = Return (VInt 10)).
Proof.
  intros Hdv Hs.
  assert (live (Some vars) w) as Hlive by (cbn [live]; by eapply lookup_lt_Some).
  rewrite (evaluate_accepted H self expr (Some vars) w Hlive Hs).
  cbn [variables_of snd fst eval_log]. rewrite (deref_Some _ _ _ Hdv).
  split; [|split; [reflexivity|]].
  - eexists. split; [reflexivity|].
    intros name v Hv. by apply lookup_union_Some_l.
  - intros Hconf -> He.
    rewrite (conforming_eval H _ (PyFragment.Name (py "e")) _ (Return (VInt 10)) Hconf).
    + reflexivity.
    + reflexivity.
    + cbn [PyFragment.eval_expr]. unfold PyFragment.load_name.
      by rewrite (lookup_union_Some_l _ _ _ _ He).
Qed.

Lemma C5_variables_shadow_builtins_witness :
  (evaluate Reference.python (evaluator window) (py "e") (Some 2%nat)
     (World [safe_dict_init; ∅; {[ py "e" := VInt 10 ]}] [] [])).1 = Return (VInt 10).
Proof.
  refine (proj2 (proj2
    (C5_variables_shadow_builtins Reference.python (evaluator window) (py "e") 2%nat
       (World [safe_dict_init; ∅; {[ py "e" := VInt 10 ]}] [] [])
       {[ py "e" := VInt 10 ]} _ _)) reference_conforms _ _).
  - reflexivity.
  - reflexivity.
  - reflexivity.
  - reflexivity.
Defined.

(** ** lcm *)

Lemma gcd_divides_product (a b : Z) :
  a <> 0%Z ->
  Z.gcd a b <> 0%Z
  /\ (Z.abs (a * b) / Z.gcd a b * Z.gcd a b)%Z = Z.abs (a * b)
  /\ (Z.abs (a * b) / Z.gcd a b)%Z = Z.lcm a b.
Proof.
  intros Ha.
  assert (Z.gcd a b <> 0%Z) as Hg.
  { intros Hg. apply Z.gcd_eq_0_l in Hg. done. }
  assert ((Z.gcd a b | Z.abs (a * b))%Z) as Hdiv.
  { apply Z.divide_abs_r, Z.divide_mul_l, Z.gcd_divide_l. }
  repeat split; [done| |].
  - destruct Hdiv as [k Hk]. rewrite Hk, Z.div_mul by done. done.
  - destruct (Z.gcd_divide_r a b) as [k Hk].
    assert (b / Z.gcd a b = k)%Z as Hq.
    { symmetry. apply Z.div_unique_exact; [done|]. by rewrite Z.mul_comm. }
    assert (a * b = a * k * Z.gcd a b)%Z as Hab.
    { rewrite <- Z.mul_assoc. f_equal. exact Hk. }
    unfold Z.lcm. rewrite Hq, Hab, (Z.abs_mul (a * k)).
    rewrite (Z.abs_eq (Z.gcd a b)) by apply Z.gcd_nonneg.
    by rewrite Z.div_mul.
Qed.

Lemma lcm_lambda_zero (a b : value) :
  numeric a = true -> numeric b = true ->
  is_zero a = true \/ is_zero b = true ->
  lcm_lambda a b = Some (Return (VInt 0)).
Proof.
  intros Ha Hb Hz. unfold lcm_lambda. rewrite Ha, Hb. cbn [andb].
  destruct Hz as [-> | ->]; [done|]. by rewrite andb_false_r.
Qed.

(** The integers among the numbers: [int] and [bool]. *)
Lemma as_int_numeric (a : value) (x : Z) :
  as_int a = Some x -> numeric a = true /\ is_zero a = (x =? 0)%Z.
Proof.
  destruct a as [| b | n | | | | | |]; try done; cbn [as_int]; intros [= <-].
  - by destruct b.
  - done.
Qed.

Lemma lcm_lambda_integers (a b : value) (x y : Z) :
  as_int a = Some x -> as_int b = Some y -> x <> 0%Z -> y <> 0%Z ->
  lcm_lambda a b = Some (Return (VInt (Z.abs (x * y) / Z.gcd x y))).
Proof.
  intros Ha Hb Hx Hy. unfold lcm_lambda.
  destruct (as_int_numeric a x Ha) as [-> ->].
  destruct (as_int_numeric b y Hb) as [-> ->].
  apply Z.eqb_neq in Hx, Hy. by rewrite Ha, Hb, Hx, Hy.
Qed.

(** With a float among two numbers, both nonzero, the call raises. *)
Lemma lcm_lambda_floats (a b : value) :
  numeric a = true -> numeric b = true ->
  is_zero a = false -> is_zero b = false ->
  as_int a = None \/ as_int b = None ->
  exists e, lcm_lambda a b = Some (Raise e)
            /\ (e = float_not_integer \/ e = int_too_large).
Proof.
  intros Ha Hb Hza Hzb Hf. unfold lcm_lambda. rewrite Ha, Hb, Hza, Hzb. cbn [andb negb].
  destruct (as_int a) as [x|], (as_int b) as [y|].
  - destruct Hf as [Hf|Hf]; discriminate Hf.
  - exists (if fits_float x then float_not_integer else int_too_large).
    split; [reflexivity|]. destruct (fits_float x); [left|right]; reflexivity.
  - exists (if fits_float y then float_not_integer else int_too_large).
    split; [reflexivity|]. destruct (fits_float y); [left|right]; reflexivity.
  - exists float_not_integer. split; [reflexivity|]. left. reflexivity.
Qed.

(** C7, as written, fails on floats: [pi] and [e] are numbers, both nonzero,
    and [lcm(pi,e)] raises, since [math.gcd] takes integers only; so does
    [lcm] of an integer and a float. *)
Lemma C7_counterexample :
  safe_dict_init !! py "pi" = Some (VFloat math_pi)
  /\ safe_dict_init !! py "e" = Some (VFloat math_e)
  /\ numeric (VFloat math_pi) = true /\ is_zero (VFloat math_pi) = false
  /\ numeric (VFloat math_e) = true /\ is_zero (VFloat math_e) = false
  /\ lcm_lambda (VFloat math_pi) (VFloat math_e) = Some (Raise float_not_integer)
  /\ lcm_lambda (VInt 4) (VFloat math_e) = Some (Raise float_not_integer)
  /\ (evaluate Reference.python (evaluator window) (py "lcm(pi,e)")
        (Some (variables window)) world0).1
     = Raise (ValueError (MSG_PREFIX ++ exn_str float_not_integer)).
Proof. repeat split; vm_compute; reflexivity. Qed.

(** C7, amended: for integers [a] and [b] ([bool] counts as integer), both
    nonzero, [lcm(a, b)] is [abs(a*b)] divided by [gcd(a, b)] (the divisor is
    not zero and the division is exact); for numbers of which one is zero it
    is [0] and nothing is raised; for numbers, both nonzero, of which one is
    a float the call raises; with a conforming host and no variables
    [evaluate("lcm(0,5)")] is [0] and [evaluate("lcm(4,6)")] is [12]. *)
Theorem C7_lcm (H : host) (self : SafeEvaluator) (vars : loc) (w : world) :
  eval_conforms H ->
  heap w !! safe_dict self = Some safe_dict_init ->
  heap w !! vars = Some ∅ ->
  (forall (a b : value) (x y : Z),
     as_int a = Some x -> as_int b = Some y -> x <> 0%Z -> y <> 0%Z ->
     lcm_lambda a b = Some (Return (VInt (Z.abs (x * y) / Z.gcd x y)))
     /\ Z.gcd x y <> 0%Z
     /\ (Z.abs (x * y) / Z.gcd x y * Z.gcd x y)%Z = Z.abs (x * y))
  /\ (forall a b : value, numeric a = true -> numeric b = true ->
       is_zero a = true \/ is_zero b = true ->
       lcm_lambda a b = Some (Return (VInt 0)))
  /\ (forall a b : value, numeric a = true -> numeric b = true ->
       is_zero a = false -> is_zero b = false ->
       as_int a = None \/ as_int b = None ->
       exists e, lcm_lambda a b = Some (Raise e)
                 /\ (e = float_not_integer \/ e = int_too_large))
  /\ (evaluate H self (py "lcm(0,5)") (Some vars) w).1 = Return (VInt 0)
  /\ (evaluate H self (py "lcm(4,6)") (Some vars) w).1 = Return (VInt 12).
Proof.
  intros Hconf Hsd Hvars.
  split.
  { intros a b x y Ha Hb Hx Hy. split; [by apply lcm_lambda_integers|].
    destruct (gcd_divides_product x y Hx) as (?&?&?). done. }
  split; [apply lcm_lambda_zero|].
  split; [apply lcm_lambda_floats|].
  split.
  - by apply (evaluate_conforming H self (py "lcm(0,5)") vars w ∅
                (PyFragment.Call (PyFragment.Name (py "lcm"))
                   (PyFragment.ECons (PyFragment.Num 0)
                      (PyFragment.ECons (PyFragment.Num 5) PyFragment.ENil)))
                (Return (VInt 0))).
  - by apply (evaluate_conforming H self (py "lcm(4,6)") vars w ∅
                (PyFragment.Call (PyFragment.Name (py "lcm"))
                   (PyFragment.ECons (PyFragment.Num 4)
                      (PyFragment.ECons (PyFragment.Num 6) PyFragment.ENil)))
                (Return (VInt 12))).
Qed.

Lemma C7_lcm_witness :
  (evaluate Reference.python (evaluator window) (py "lcm(0,5)")
     (Some (variables window)) world0).1 = Return (VInt 0)
  /\ (evaluate Reference.python (evaluator window) (py "lcm(4,6)")
     (Some (variables window)) world0).1 = Return (VInt 12).
Proof.
  refine (proj2 (proj2 (proj2
    (C7_lcm Reference.python (evaluator window) (variables window) world0
       reference_conforms _ _)))); reflexivity.
Defined.

(** ** Nesting depth *)

Lemma forallb_replicate {A} (f : A -> bool) (x : A) (n : nat) :
  f x = true -> forallb f (replicate n x) = true.
Proof. intros Hx. induction n as [|n IH]; simpl; [done|]. by rewrite Hx, IH. Qed.

Lemma nested_nonspace (n : nat) :
  Forall (fun c => isspace c = false /\ c <> FULLWIDTH_LPAREN /\ c <> FULLWIDTH_RPAREN)
    (nested n).
Proof.
  unfold nested. rewrite !Forall_app. repeat split.
  - by apply Forall_replicate.
  - by repeat constructor.
  - by apply Forall_replicate.
Qed.

Lemma sanitize_input_nested (n : nat) : sanitize_input (nested n) = nested n.
Proof. rewrite sanitize_input_eq. apply sanitize_spec_clean, nested_nonspace. Qed.

Lemma is_safe_expression_nested (U : unicode_db) (n : nat) :
  is_safe_expression U (nested n) = true.
Proof.
  rewrite is_safe_expression_nonspace.
  - apply andb_true_iff. split.
    + unfold nested. by destruct n.
    + unfold nested. rewrite !forallb_app, !forallb_replicate by done. done.
  - eapply Forall_impl; [apply nested_nonspace|]. by intros c [? _].
Qed.

Lemma depth_scan_open (n cur best : nat) (rest : pystr) :
  depth_scan cur best (replicate n 0x28 ++ rest)
  = depth_scan (cur + n) (Nat.max best (if n is O then best else cur + n)) rest.
Proof.
  revert cur best. induction n as [|n IH]; intros cur best; simpl.
  - by rewrite Nat.add_0_r, Nat.max_id.
  - rewrite IH. f_equal; [lia|]. destruct n; lia.
Qed.

Lemma depth_scan_close (n cur best : nat) :
  depth_scan cur best (replicate n 0x29) = best.
Proof. revert cur. induction n as [|n IH]; intros cur; simpl; [done|apply IH]. Qed.

Lemma nesting_depth_nested (n : nat) : nesting_depth (nested n) = n.
Proof.
  unfold nesting_depth, nested. rewrite depth_scan_open. cbn [py].
  change (py "1") with [0x31]. cbn [app depth_scan].
  change (0x31 =? 0x28) with false. change (0x31 =? 0x29) with false. cbn iota.
  rewrite depth_scan_close. destruct n; lia.
Qed.




(** ** calculate: the equals sign *)

Lemma contains_In (c : N) (s : pystr) : contains c s = true <-> In c s.
Proof.
  unfold contains. rewrite existsb_exists. split.
  - intros (x & Hx & Hc). apply N.eqb_eq in Hc. by subst.
  - intros Hc. exists c. split; [done|apply N.eqb_refl].
Qed.

Lemma In_lstrip (c : N) (s : pystr) :
  isspace c = false -> In c s -> In c (lstrip s).
Proof.
  intros Hc. induction s as [|d r IH]; [done|]. intros Hin. simpl.
  destruct (isspace d) eqn:Hd; [|done].
  destruct Hin as [-> | Hin]; [congruence | auto].
Qed.

Lemma In_strip (c : N) (s : pystr) :
  isspace c = false -> In c s -> In c (strip s).
Proof.
  intros Hc Hin. unfold strip. apply in_rev. rewrite rev_involutive.
  apply In_lstrip; [done|]. apply -> in_rev. by apply In_lstrip.
Qed.

(** [split('=', 1)] cuts at the first separator. *)
Lemma split_once_In (c : N) (s : pystr) :
  In c s ->
  exists a b, split_once c s = (a, Some b) /\ s = a ++ c :: b /\ ~ In c a.
Proof.
  induction s as [|d r IH]; [done|]. intros Hin. simpl.
  destruct (d =? c) eqn:Hd.
  - apply N.eqb_eq in Hd as ->. exists [], r. by repeat split; auto.
  - apply N.eqb_neq in Hd. destruct Hin as [-> | Hin]; [done|].
    destruct (IH Hin) as (a & b & -> & -> & Hna).
    exists (d :: a), b. split; [done|]. split; [done|].
    intros [? | ?]; auto.
Qed.

Lemma lstrip_snoc (lhs : pystr) (op : N) :
  isspace op = false -> exists l, lstrip (lhs ++ [op]) = l ++ [op].
Proof.
  intros Hop. induction lhs as [|d r IH]; simpl.
  - rewrite Hop. by exists [].
  - destruct (isspace d); [done|]. by exists (d :: r).
Qed.

(** Stripping keeps a final character that is no whitespace. *)
Lemma strip_snoc (lhs : pystr) (op : N) :
  isspace op = false -> exists l, strip (lhs ++ [op]) = l ++ [op].
Proof.
  intros Hop. unfold strip.
  destruct (lstrip_snoc lhs op Hop) as [l ->].
  rewrite rev_app_distr. simpl. rewrite Hop. simpl.
  exists (rev (rev l)). done.
Qed.

(** A string that ends in [<], [>] or [!] is no identifier. *)
Lemma isidentifier_snoc_operator (U : unicode_db) (l : pystr) (op : N) :
  In op [0x3C; 0x3E; 0x21] -> isidentifier U (l ++ [op]) = false.
Proof.
  intros Hop.
  assert (xid_start U op = false /\ xid_continue U op = false /\ (op =? 0x5F) = false)
    as (Hs & Hc & Hu).
  { simpl in Hop. destruct Hop as [<- | [<- | [<- | []]]]; done. }
  destruct l as [|c l]; simpl.
  - by rewrite Hs, Hu.
  - rewrite forallb_app. simpl. rewrite Hc. simpl.
    by rewrite andb_false_r, andb_false_r.
Qed.

Lemma strip_In_nonempty (c : N) (s : pystr) :
  isspace c = false -> In c s -> strip s <> [].
Proof.
  intros Hc Hin Hs. apply (In_strip c s Hc) in Hin. by rewrite Hs in Hin.
Qed.

(** With an equals sign in the text, [calculate] runs the assignment branch
    on the two sides of the first one. *)
Lemma calculate_equals (H : host) (self : FormulaCalculator) (text : pystr) :
  In EQUALS text ->
  let parts := split_once EQUALS (strip text) in
  calculate H self text
  = try_except_ValueError
      (calculate_assignment H self (strip parts.1) (strip (default [] parts.2));;
       calculate_done)
      calculate_failed.
Proof.
  intros Hin parts. unfold calculate, calculate_body.
  assert (In EQUALS (strip text)) as Hin' by by apply In_strip.
  apply contains_In in Hin' as Hc. rewrite Hc.
  destruct (strip text); [|done]. by simpl in Hin'.
Qed.

Lemma calculate_invalid_name (H : host) (self : FormulaCalculator)
    (text : pystr) (w : world) :
  In EQUALS text ->
  isidentifier (ucd H) (strip (split_once EQUALS (strip text)).1) = false ->
  calculate H self text w = invalid_name_failure w.
Proof.
  intros Hin Hid. rewrite (calculate_equals H self text Hin).
  unfold calculate_assignment. rewrite Hid. cbn [negb].
  unfold invalid_name_failure.
  match goal with
  | |- _ = (_, World _ _ (?l ++ [?a; ?b])) =>
    replace (l ++ [a; b]) with ((l ++ [a]) ++ [b]) by (by rewrite <- app_assoc)
  end.
  reflexivity.
Qed.

(** C3, at the input [x==5] with [x = 5] defined: [calculate] splits at the
    first equals sign, takes [x] as the target of an assignment and hands
    [=5] to the evaluator; the comparison [x==5] is never evaluated. *)
Theorem C3_double_equals_taken_as_assignment (H : host) :
  let w := (dict_setitem (variables window) (py "x") (VInt 5) world0).2 in
  split_once EQUALS (strip (py "x==5")) = (py "x", Some (py "=5"))
  /\ calculate H window (py "x==5")
     = try_except_ValueError
         (calculate_assignment H window (py "x") (py "=5");; calculate_done)
         calculate_failed
  /\ evaluated (calculate H window (py "x==5") w).2 = [py "=5"].
Proof.
  intros w. split; [reflexivity|]. split; [reflexivity|].
  change (calculate H window (py "x==5"))
    with (try_except_ValueError
            (calculate_assignment H window (py "x") (py "=5");; calculate_done)
            calculate_failed).
  unfold evaluated.
  rewrite (proj2 (calculate_try_store _ w)).
  rewrite (proj2 (calculate_assignment_store H window (py "x") (py "=5") w eq_refl)).
  rewrite (evaluate_accepted H (evaluator window) (py "=5") (Some (variables window)) w);
    [|subst w; vm_compute; lia|reflexivity].
  reflexivity.
Qed.

(** C10: when the text holds an equals sign, [calculate] takes the
    assignment branch on the text before and after the first one; when the
    text before it is no identifier, in particular when it ends in [<], [>]
    or [!] as in a comparison with [<=], [>=] or [!=], the call fails with
    the invalid-variable-name warning: nothing is evaluated and no variable
    is set. *)
Theorem C10_equals_sign_means_assignment (H : host) (self : FormulaCalculator)
    (text : pystr) (w : world) :
  In EQUALS text ->
  let parts := split_once EQUALS (strip text) in
  (exists after, parts.2 = Some after
                 /\ strip text = parts.1 ++ EQUALS :: after
                 /\ ~ In EQUALS parts.1)
  /\ calculate H self text
     = try_except_ValueError
         (calculate_assignment H self (strip parts.1) (strip (default [] parts.2));;
          calculate_done)
         calculate_failed
  /\ (isidentifier (ucd H) (strip parts.1) = false ->
      calculate H self text w = invalid_name_failure w)
  /\ (forall lhs op, parts.1 = lhs ++ [op] -> In op [0x3C; 0x3E; 0x21] ->
      calculate H self text w = invalid_name_failure w).
Proof.
  intros Hin parts.
  assert (In EQUALS (strip text)) as Hin' by by apply In_strip.
  split.
  { destruct (split_once_In _ _ Hin') as (a & b & Hsplit & Hs & Hna).
    subst parts. rewrite Hsplit. exists b. by cbn [fst snd]. }
  split; [by apply calculate_equals|].
  split; [by apply calculate_invalid_name|].
  intros lhs op Hparts Hop. apply calculate_invalid_name; [done|].
  fold parts. rewrite Hparts.
  destruct (strip_snoc lhs op) as [l ->].
  - simpl in Hop. destruct Hop as [<- | [<- | [<- | []]]]; done.
  - by apply isidentifier_snoc_operator.
Qed.

Lemma C10_equals_sign_means_assignment_witness :
  calculate Reference.python window (py "3<=5") world0 = invalid_name_failure world0.
Proof.
  refine (proj2 (proj2 (proj2
    (C10_equals_sign_means_assignment Reference.python window (py "3<=5") world0 _)))
    (py "3") 0x3C _ _).
  - vm_compute. tauto.
  - reflexivity.
  - vm_compute. tauto.
Defined.

(** * Further properties of the evaluator *)

Lemma to_ascii_paren_not_fullwidth (c : N) :
  to_ascii_paren c <> FULLWIDTH_LPAREN /\ to_ascii_paren c <> FULLWIDTH_RPAREN.
Proof.
  unfold to_ascii_paren.
  destruct (c =? FULLWIDTH_LPAREN) eqn:Hl; [done|].
  destruct (c =? FULLWIDTH_RPAREN) eqn:Hr; [done|].
  by apply N.eqb_neq in Hl, Hr.
Qed.

Lemma sanitize_input_clean (raw : pystr) :
  Forall (fun c => isspace c = false /\ c <> FULLWIDTH_LPAREN /\ c <> FULLWIDTH_RPAREN)
    (sanitize_input raw).
Proof.
  rewrite sanitize_input_eq. unfold sanitize_spec.
  apply Forall_forall. intros c Hc. apply list_elem_of_In in Hc.
  apply in_map_iff in Hc as (c0 & <- & Hc0).
  apply filter_In in Hc0 as [_ Hc0].
  split; [|apply to_ascii_paren_not_fullwidth].
  apply to_ascii_paren_nonspace. unfold nonspace in Hc0. by destruct (isspace c0).
Qed.

(** X1: sanitizing twice is sanitizing once. *)
Theorem X1_sanitize_input_idempotent (raw : pystr) :
  sanitize_input (sanitize_input raw) = sanitize_input raw.
Proof.
  rewrite (sanitize_input_eq (sanitize_input raw)).
  apply sanitize_spec_clean, sanitize_input_clean.
Qed.

(** X2: the validator accepts exactly the strings that are a non-empty run
    of characters of the class, or such a run followed by one newline. *)
Theorem X2_validator_accepts_iff (U : unicode_db) (s : pystr) :
  is_safe_expression U s = true <->
  exists body, body <> [] /\ forallb (safe_char U) body = true
               /\ (s = body \/ s = body ++ [LF]).
Proof. apply match_plus_dollar_spec. Qed.

(** X3: on what the sanitizer returns, the validator accepts exactly the
    non-empty strings all of whose characters are in the class: the final
    newline the pattern tolerates cannot come out of the sanitizer. *)
Theorem X3_validator_after_sanitizer (U : unicode_db) (raw : pystr) :
  is_safe_expression U (sanitize_input raw) = true <->
  sanitize_input raw <> [] /\ forall c, In c (sanitize_input raw) -> safe_char U c = true.
Proof.
  rewrite (is_safe_expression_nonspace U _ (sanitize_input_nonspace raw)).
  rewrite andb_true_iff, negb_true_iff, bool_decide_eq_false, forallb_forall.
  done.
Qed.

Lemma sanitize_input_whitespace (raw : pystr) :
  Forall (fun c => isspace c = true) raw -> sanitize_input raw = [].
Proof.
  intros Hraw. rewrite sanitize_input_eq. unfold sanitize_spec.
  induction Hraw as [|c r Hc _ IH]; [done|].
  simpl. unfold nonspace at 1. by rewrite Hc.
Qed.

(** X4: an input that is empty or made of whitespace only is rejected with
    the validation error; [eval] is not called and the state is kept. *)
Theorem X4_evaluate_blank_input (H : host) (self : SafeEvaluator) (raw : pystr)
    (variables : option loc) (w : world) :
  Forall (fun c => isspace c = true) raw ->
  evaluate H self raw variables w = (Raise (ValueError (MSG_PREFIX ++ MSG_UNSAFE)), w).
Proof.
  intros Hraw. apply evaluate_rejected. by rewrite sanitize_input_whitespace.
Qed.

Lemma X4_evaluate_blank_input_witness :
  evaluate Reference.python (evaluator window) (py "   ") None world0
  = (Raise (ValueError (MSG_PREFIX ++ MSG_UNSAFE)), world0).
Proof.
  apply (X4_evaluate_blank_input Reference.python). by repeat constructor.
Defined.

(** Whatever [evaluate] raises is the [ValueError] of its [except] clause. *)
Lemma evaluate_raises (H : host) (self : SafeEvaluator) (raw : pystr)
    (variables : option loc) (w : world) (e : exn) :
  (evaluate H self raw variables w).1 = Raise e ->
  exists m, e = ValueError (MSG_PREFIX ++ m).
Proof.
  unfold evaluate, try_except.
  match goal with |- context [match ?b w with _ => _ end] => destruct (b w) as [[v|x] w'] end.
  - done.
  - cbn [raise fst]. intros [= <-]. by eexists.
Qed.



(** X6: an empty variable table is as good as none: the two calls agree in
    outcome and in state. *)
Theorem X6_evaluate_empty_variables (H : host) (self : SafeEvaluator)
    (raw : pystr) (vars : loc) (w : world) :
  heap w !! vars = Some ∅ ->
  evaluate H self raw (Some vars) w = evaluate H self raw None w.
Proof.
  intros Hvars.
  assert (live (Some vars) w) as Hlive by (cbn [live]; by eapply lookup_lt_Some).
  destruct (is_safe_expression (ucd H) (sanitize_input raw)) eqn:Hs.
  - rewrite (evaluate_accepted H self raw (Some vars) w Hlive Hs).
    rewrite (evaluate_accepted H self raw None w I Hs).
    cbn [variables_of]. by rewrite (deref_Some _ _ _ Hvars).
  - by rewrite !evaluate_rejected.
Qed.

Lemma X6_evaluate_empty_variables_witness :
  evaluate Reference.python (evaluator window) (py "lcm(4,6)")
    (Some (variables window)) world0
  = evaluate Reference.python (evaluator window) (py "lcm(4,6)") None world0.
Proof. apply (X6_evaluate_empty_variables Reference.python). reflexivity. Defined.

(** X7: the variables of one call do not reach the next: after any call,
    a call without variables hands [eval] the built-in table as it was. *)
Theorem X7_no_leak_between_calls (H : host) (self : SafeEvaluator)
    (raw1 raw2 : pystr) (variables : option loc) (w : world) (sd : dict) :
  live variables w ->
  heap w !! safe_dict self = Some sd ->
  is_safe_expression (ucd H) (sanitize_input raw2) = true ->
  let w1 := (evaluate H self raw1 variables w).2 in
  eval_log (evaluate H self raw2 None w1).2
  = eval_log w1 ++ [(sanitize_input raw2, eval_globals, sd)].
Proof.
  intros Hlive Hsd Hs w1.
  rewrite (evaluate_accepted H self raw2 None w1 I Hs).
  cbn [snd eval_log variables_of].
  rewrite (deref_Some (safe_dict self) w1 sd).
  - by rewrite (left_id_L ∅ (∪)).
  - by apply evaluate_frame.
Qed.

Lemma X7_no_leak_between_calls_witness :
  eval_log (evaluate Reference.python (evaluator window) (py "e") None
              (evaluate Reference.python (evaluator window) (py "e") (Some 2%nat)
                 (World [safe_dict_init; ∅; {[ py "e" := VInt 10 ]}] [] [])).2).2
  = eval_log (evaluate Reference.python (evaluator window) (py "e") (Some 2%nat)
                (World [safe_dict_init; ∅; {[ py "e" := VInt 10 ]}] [] [])).2
    ++ [(sanitize_input (py "e"), eval_globals, safe_dict_init)].
Proof.
  apply (X7_no_leak_between_calls Reference.python (evaluator window) (py "e") (py "e")
           (Some 2%nat) (World [safe_dict_init; ∅; {[ py "e" := VInt 10 ]}] [] [])
           safe_dict_init).
  - cbn. lia.
  - reflexivity.
  - reflexivity.
Defined.

(** X8: with a conforming host, a name that neither the variables nor the
    built-in table define ends the call with the general error that carries
    the host's message for a lookup in [None]. *)
Theorem X8_unknown_name (H : host) (self : SafeEvaluator) (raw : pystr)
    (vars : loc) (w : world) (dv : dict) (id : pystr) :
  eval_conforms H ->
  heap w !! safe_dict self = Some safe_dict_init ->
  heap w !! vars = Some dv ->
  is_safe_expression (ucd H) (sanitize_input raw) = true ->
  PyFragment.parse (sanitize_input raw) = Some (PyFragment.Name id) ->
  (dv ∪ safe_dict_init) !! id = None ->
  (evaluate H self raw (Some vars) w).1
  = Raise (ValueError (MSG_PREFIX ++ py "'NoneType' object is not subscriptable")).
Proof.
  intros Hconf Hsd Hdv Hs Hparse Hid.
  rewrite (evaluate_conforming H self raw vars w dv (PyFragment.Name id)
             (Raise PyFragment.NoneType_not_subscriptable) Hconf Hsd Hdv Hs Hparse).
  - reflexivity.
  - cbn [PyFragment.eval_expr]. unfold scope_only. by rewrite Hid.
Qed.

Lemma X8_unknown_name_witness :
  (evaluate Reference.python (evaluator window) (py " open ")
     (Some (variables window)) world0).1
  = Raise (ValueError (MSG_PREFIX ++ py "'NoneType' object is not subscriptable")).
Proof.
  apply (X8_unknown_name Reference.python (evaluator window) (py " open ")
           (variables window) world0 ∅ (py "open") reference_conforms);
    reflexivity.
Defined.

(** * Further properties of [calculate] *)

Lemma lstrip_whitespace (s : pystr) :
  Forall (fun c => isspace c = true) s -> lstrip s = [].
Proof. induction 1 as [|c r Hc _ IH]; [done|]. simpl. by rewrite Hc. Qed.

Lemma strip_whitespace (s : pystr) :
  Forall (fun c => isspace c = true) s -> strip s = [].
Proof. intros Hs. unfold strip. by rewrite (lstrip_whitespace s Hs). Qed.

Lemma In_lstrip_inv (c : N) (s : pystr) : In c (lstrip s) -> In c s.
Proof.
  induction s as [|d r IH]; [done|]. simpl.
  destruct (isspace d); [auto|done].
Qed.

Lemma In_strip_inv (c : N) (s : pystr) : In c (strip s) -> In c s.
Proof.
  unfold strip. intros Hc. apply in_rev in Hc.
  apply In_lstrip_inv in Hc. apply in_rev in Hc. by apply In_lstrip_inv.
Qed.

Lemma calculate_nonempty (H : host) (self : FormulaCalculator) (text : pystr) :
  strip text <> [] ->
  calculate H self text
  = try_except_ValueError (calculate_body H self (strip text)) calculate_failed.
Proof. intros Hne. unfold calculate. by destruct (strip text). Qed.

(** What formatting raises is what [str] raises on one of the values. *)
Lemma format_value_raises (H : host) (v : value) (w : world) (e : exn) :
  (format_value H v w).1 = Raise e -> str_raises H v = Some e.
Proof.
  unfold format_value. destruct (str_raises H v) as [x|]; [|done].
  cbn [raise fst]. by intros [= <-].
Qed.

Lemma format_value_returns (H : host) (v : value) (w : world) :
  str_raises H v = None -> format_value H v w = (Return (builtin_str H v), w).
Proof. unfold format_value. by intros ->. Qed.

Lemma format_items_raises (H : host) (items : list (pystr * value))
    (w : world) (e : exn) :
  (format_items H items w).1 = Raise e ->
  exists item, In item items /\ str_raises H item.2 = Some e.
Proof.
  revert w. induction items as [|item items IH]; intros w; [done|].
  cbn [format_items]. rewrite bind_run.
  destruct (format_value H item.2 w) as [[t|x] w1] eqn:Hf; cbn [fst].
  - intros He. destruct (IH w1 He) as (i & Hi & Hr). exists i. split; [by right|done].
  - intros [= <-]. exists item. split; [by left|].
    apply (format_value_raises H _ w). by rewrite Hf.
Qed.

Lemma format_items_returns (H : host) (items : list (pystr * value)) (w : world) :
  Forall (fun item => str_raises H item.2 = None) items ->
  format_items H items w = (Return tt, w).
Proof.
  induction 1 as [|item items Hi _ IH]; [done|].
  cbn [format_items]. rewrite bind_run. by rewrite (format_value_returns H _ w Hi).
Qed.

Lemma In_sorted_items (vars : dict) (name : pystr) (v : value) :
  In (name, v) (sorted_items vars) <-> vars !! name = Some v.
Proof.
  unfold sorted_items. rewrite <- list_elem_of_In, merge_sort_Permutation.
  apply elem_of_map_to_list.
Qed.

(** [update_var_display] raises what [str] raises on a value of the table. *)
Lemma update_var_display_raises (H : host) (self : FormulaCalculator)
    (w : world) (e : exn) :
  (update_var_display H self w).1 = Raise e ->
  exists name v, deref (variables self) w !! name = Some v /\ str_raises H v = Some e.
Proof.
  unfold update_var_display. rewrite bind_run. unfold dict_read. rewrite bind_run.
  destruct (bool_decide (deref (variables self) w = ∅)); [done|].
  destruct (format_items H _ w) as [[[]|x] w1] eqn:Hf; [done|].
  cbn [fst]. intros [= <-].
  destruct (format_items_raises H (sorted_items (deref (variables self) w)) w x)
    as ([name v] & Hin & Hr); [by rewrite Hf|].
  exists name, v. split; [by apply In_sorted_items|done].
Qed.

(** It returns, showing the table, when [str] returns on every value. *)
Lemma update_var_display_returns (H : host) (self : FormulaCalculator) (w : world) :
  (forall name v, deref (variables self) w !! name = Some v -> str_raises H v = None) ->
  update_var_display H self w
  = (Return tt, World (heap w) (eval_log w)
                  (ui_log w ++ [VarDisplay (deref (variables self) w)])).
Proof.
  intros Hall. unfold update_var_display. rewrite bind_run. unfold dict_read.
  rewrite bind_run.
  destruct (bool_decide (deref (variables self) w = ∅)); [done|].
  rewrite format_items_returns; [done|].
  apply Forall_forall. intros [name v] Hin. apply list_elem_of_In in Hin.
  apply (Hall name). by apply In_sorted_items.
Qed.

(** What the [try] block of [calculate] raises is a [ValueError], or what
    [str] raises on a value. *)
Lemma calculate_body_raises (H : host) (self : FormulaCalculator)
    (expr : pystr) (w : world) (e : exn) :
  (calculate_body H self expr w).1 = Raise e ->
  exn_class e = "ValueError"%string \/ exists v, str_raises H v = Some e.
Proof.
  unfold calculate_body. rewrite bind_run.
  destruct (contains EQUALS expr).
  - unfold calculate_assignment.
    destruct (isidentifier (ucd H) _); cbn [negb].
    + rewrite bind_run.
      destruct (evaluate H _ _ _ w) as [[v|x] w1] eqn:Hev.
      * rewrite bind_run. destruct (dict_setitem _ _ _ w1) as [[[]|x] w2] eqn:Hset;
          [|discriminate Hset].
        rewrite bind_run.
        destruct (update_var_display H self w2) as [[[]|x] w3] eqn:Hupd.
        -- rewrite bind_run.
           destruct (format_value H v w3) as [[t|x] w4] eqn:Hf; [done|].
           cbn [fst]. intros [= <-]. right. exists v.
           apply (format_value_raises H v w3). by rewrite Hf.
        -- cbn [fst]. intros [= <-]. right.
           destruct (update_var_display_raises H self w2 x) as (name & v' & _ & Hr);
             [by rewrite Hupd|]. by exists v'.
      * cbn [fst]. intros [= <-]. left.
        assert ((evaluate H (evaluator self)
                   (strip (default [] (split_once EQUALS expr).2))
                   (Some (variables self)) w).1 = Raise x) as Hx by by rewrite Hev.
        by destruct (evaluate_raises _ _ _ _ _ _ Hx) as [m ->].
    + cbn [raise fst]. intros [= <-]. by left.
  - unfold calculate_expression. rewrite bind_run.
    destruct (evaluate H _ _ _ w) as [[v|x] w1] eqn:Hev.
    + rewrite bind_run.
      destruct (format_value H v w1) as [[t|x] w2] eqn:Hf; [done|].
      cbn [fst]. intros [= <-]. right. exists v.
      apply (format_value_raises H v w1). by rewrite Hf.
    + cbn [fst]. intros [= <-]. left.
      assert ((evaluate H (evaluator self) expr (Some (variables self)) w).1 = Raise x)
        as Hx by by rewrite Hev.
      by destruct (evaluate_raises _ _ _ _ _ _ Hx) as [m ->].
Qed.


(** X10: on a text that is empty or whitespace only, [calculate] shows the
    status message and does nothing else. *)
Theorem X10_calculate_blank (H : host) (self : FormulaCalculator)
    (text : pystr) (w : world) :
  Forall (fun c => isspace c = true) text ->
  calculate H self text w
  = (Return tt,
     World (heap w) (eval_log w) (ui_log w ++ [StatusMessage (py "输入不能为空")])).
Proof. intros Ht. unfold calculate. by rewrite (strip_whitespace text Ht). Qed.

Lemma X10_calculate_blank_witness :
  calculate Reference.python window (py "  ") world0
  = (Return tt, World (heap world0) (eval_log world0)
                  (ui_log world0 ++ [StatusMessage (py "输入不能为空")])).
Proof. apply (X10_calculate_blank Reference.python). by repeat constructor. Defined.

(** The heap after the assignment branch, by the outcome of [evaluate]. *)
Lemma calculate_assignment_heap (H : host) (self : FormulaCalculator)
    (var_name var_expr : pystr) (w : world) :
  isidentifier (ucd H) var_name = true ->
  let r := evaluate H (evaluator self) var_expr (Some (variables self)) w in
  heap (try_except_ValueError
          (calculate_assignment H self var_name var_expr;; calculate_done)
          calculate_failed w).2
  = match r.1 with
    | Return v =>
      <[variables self := <[var_name := v]> (deref (variables self) r.2)]> (heap r.2)
    | Raise _ => heap r.2
    end.
Proof.
  intros Hid r. subst r.
  rewrite (proj1 (calculate_try_store _ w)).
  apply (calculate_assignment_store H self var_name var_expr w Hid).
Qed.

(** X11: when the text before the first equals sign is an identifier and
    the evaluation of the text after it returns [v], [calculate] stores [v]
    under that name and keeps every other variable. *)
Theorem X11_calculate_assignment_stores (H : host) (self : FormulaCalculator)
    (text : pystr) (w : world) (d : dict) (v : value) :
  In EQUALS text ->
  let parts := split_once EQUALS (strip text) in
  let var_name := strip parts.1 in
  let var_expr := strip (default [] parts.2) in
  isidentifier (ucd H) var_name = true ->
  heap w !! variables self = Some d ->
  (evaluate H (evaluator self) var_expr (Some (variables self)) w).1 = Return v ->
  heap (calculate H self text w).2 !! variables self = Some (<[var_name := v]> d).
Proof.
  intros Hin parts var_name var_expr Hid Hd Hev.
  rewrite (calculate_equals H self text Hin).
  rewrite (calculate_assignment_heap H self _ _ w Hid). fold parts var_name var_expr.
  rewrite Hev.
  assert (heap (evaluate H (evaluator self) var_expr (Some (variables self)) w).2
            !! variables self = Some d) as Hd'.
  { apply evaluate_frame; [|done]. cbn [live]. by eapply lookup_lt_Some. }
  rewrite (deref_Some _ _ _ Hd').
  apply list_lookup_insert_eq. by eapply lookup_lt_Some.
Qed.

Lemma X11_calculate_assignment_stores_witness :
  heap (calculate Reference.python window (py " a = lcm(4, 6) ") world0).2
    !! variables window = Some (<[py "a" := VInt 12]> ∅).
Proof.
  apply (X11_calculate_assignment_stores Reference.python window
           (py " a = lcm(4, 6) ") world0 ∅ (VInt 12)).
  - vm_compute. tauto.
  - reflexivity.
  - reflexivity.
  - vm_compute. reflexivity.
Defined.

(** The heap after the branch without an equals sign is the heap after
    [evaluate]. *)
Lemma calculate_expression_heap (H : host) (self : FormulaCalculator)
    (expr : pystr) (w : world) :
  heap (try_except_ValueError
          (calculate_expression H self expr;; calculate_done) calculate_failed w).2
  = heap (evaluate H (evaluator self) expr (Some (variables self)) w).2.
Proof.
  rewrite (proj1 (calculate_try_store _ w)).
  unfold calculate_expression.
  apply bind_store. intros v. auto 10 with display.
Qed.

(** With a variable of more than 4300 digits in the table, an assignment
    stores its value and then fails while the table is formatted: the call
    ends with the warning, after the table was changed. *)
Example calculate_stores_then_fails :
  let w := World [safe_dict_init; {[ py "x" := VInt (10 ^ 4300) ]}] [] [] in
  let out := calculate Reference.python window (py "a=x") w in
  out.1 = Return tt
  /\ ui_log out.2
     = [WarningBox (py "计算错误") (exn_str Reference.digits_limit);
        StatusMessage (py "计算失败")]
  /\ heap out.2 !! variables window
     = Some (<[py "a" := VInt (10 ^ 4300)]> {[ py "x" := VInt (10 ^ 4300) ]}).
Proof. cbv zeta. split; [|split]; vm_compute; reflexivity. Qed.

(** X12: the variable table after [calculate]: as before, unless the text
    holds an equals sign, the text before the first one is an identifier and
    the evaluation of the rest returned a value, which is then the one entry
    set.  The value is stored before anything is formatted, so the entry is
    set also when the call then fails, or raises, while the table or the
    result is being formatted. *)
Theorem X12_calculate_table (H : host) (self : FormulaCalculator)
    (text : pystr) (w : world) (d : dict) :
  heap w !! variables self = Some d ->
  let parts := split_once EQUALS (strip text) in
  let var_name := strip parts.1 in
  let var_expr := strip (default [] parts.2) in
  heap (calculate H self text w).2 !! variables self
  = Some (if contains EQUALS (strip text) && isidentifier (ucd H) var_name
          then match (evaluate H (evaluator self) var_expr
                        (Some (variables self)) w).1 with
               | Return v => <[var_name := v]> d
               | Raise _ => d
               end
          else d).
Proof.
  intros Hd parts var_name var_expr.
  assert (live (Some (variables self)) w) as Hlive
    by (cbn [live]; by eapply lookup_lt_Some).
  destruct (decide (strip text = [])) as [Hstrip|Hstrip].
  { unfold calculate. by rewrite Hstrip. }
  destruct (contains EQUALS (strip text)) eqn:Hc; cbn [andb].
  - assert (In EQUALS text) as Hin by by apply In_strip_inv, contains_In.
    rewrite (calculate_equals H self text Hin). fold parts var_name var_expr.
    destruct (isidentifier (ucd H) var_name) eqn:Hid.
    + rewrite (calculate_assignment_heap H self _ _ w Hid).
      pose proof (evaluate_frame H (evaluator self) var_expr _ w _ d Hlive Hd) as Hd'.
      destruct (evaluate H (evaluator self) var_expr (Some (variables self)) w)
        as [[v|x] w1] eqn:Hev; cbn [fst snd] in *; [|done].
      rewrite (deref_Some _ _ _ Hd').
      apply list_lookup_insert_eq. by eapply lookup_lt_Some.
    + rewrite (proj1 (calculate_try_store _ w)).
      unfold calculate_assignment. rewrite Hid. by cbn.
  - rewrite calculate_nonempty by done.
    unfold calculate_body. rewrite Hc.
    rewrite calculate_expression_heap. by apply evaluate_frame.
Qed.

Lemma X12_calculate_table_witness :
  heap (calculate Reference.python window (py "a=x")
          (World [safe_dict_init; {[ py "x" := VInt (10 ^ 4300) ]}] [] [])).2
    !! variables window
  = Some (<[py "a" := VInt (10 ^ 4300)]> {[ py "x" := VInt (10 ^ 4300) ]}).
Proof.
  exact (X12_calculate_table Reference.python window (py "a=x")
           (World [safe_dict_init; {[ py "x" := VInt (10 ^ 4300) ]}] [] [])
           {[ py "x" := VInt (10 ^ 4300) ]} eq_refl).
Defined.

(** * The variables tab *)

Lemma add_variable_blank (H : host) (self : FormulaCalculator) (edits : var_edits)
    (w : world) :
  strip (var_name_edit edits) = [] \/ strip (var_value_edit edits) = [] ->
  add_variable H self edits w
  = (Return edits,
     World (heap w) (eval_log w)
       (ui_log w ++ [WarningBox TITLE_ERROR (py "变量名和值不能为空")])).
Proof.
  intros Hb. unfold add_variable.
  destruct Hb as [-> | ->]; [done|].
  by rewrite orb_true_r.
Qed.

Lemma add_variable_invalid (H : host) (self : FormulaCalculator) (edits : var_edits)
    (w : world) :
  strip (var_name_edit edits) <> [] -> strip (var_value_edit edits) <> [] ->
  isidentifier (ucd H) (strip (var_name_edit edits)) = false ->
  add_variable H self edits w
  = (Return edits,
     World (heap w) (eval_log w)
       (ui_log w ++ [WarningBox TITLE_ERROR (py "无效的变量名")])).
Proof.
  intros Hn Hv Hid. unfold add_variable.
  destruct (strip (var_name_edit edits)); [done|].
  destruct (strip (var_value_edit edits)); [done|].
  cbn [is_empty orb]. by rewrite Hid.
Qed.

(** The dictionaries and the record of [eval] after [add_variable] on a
    name that is an identifier and a value that is not blank, by the outcome
    of [evaluate]: the value is stored before the table is shown. *)
Lemma add_variable_store (H : host) (self : FormulaCalculator) (edits : var_edits)
    (w : world) :
  strip (var_name_edit edits) <> [] -> strip (var_value_edit edits) <> [] ->
  isidentifier (ucd H) (strip (var_name_edit edits)) = true ->
  let var_name := strip (var_name_edit edits) in
  let r := evaluate H (evaluator self) (strip (var_value_edit edits))
             (Some (variables self)) w in
  let out := add_variable H self edits w in
  heap out.2
  = match r.1 with
    | Return v =>
      <[variables self := <[var_name := v]> (deref (variables self) r.2)]> (heap r.2)
    | Raise _ => heap r.2
    end
  /\ eval_log out.2 = eval_log r.2.
Proof.
  intros Hn Hv Hid var_name r out. subst var_name r out. unfold add_variable.
  destruct (strip (var_name_edit edits)) as [|c n] eqn:Hname; [done|].
  destruct (strip (var_value_edit edits)) as [|c' n'] eqn:Hvalue; [done|].
  cbn [is_empty orb]. rewrite Hid. cbn [negb].
  match goal with
  | |- context [try_except_ValueError ?m ?h w] =>
    destruct (try_store m h w) as [-> ->]; [intros e; auto with display|]
  end.
  unfold add_variable_body. rewrite bind_run.
  destruct (evaluate H _ _ _ w) as [[v|x] w1]; cbn [fst snd]; [|done].
  match goal with
  | |- context [(?m ≫= ?f) w1] =>
    destruct (bind_store m f w1) as [-> ->]; [intros []; auto 10 with display|]
  end.
  done.
Qed.

(** How [add_variable] ends. *)
Lemma add_variable_result (H : host) (self : FormulaCalculator) (edits : var_edits)
    (w : world) :
  let var_name := strip (var_name_edit edits) in
  let var_value := strip (var_value_edit edits) in
  let out := add_variable H self edits w in
  out.1 = Return edits
  \/ (out.1 = Return {| var_name_edit := []; var_value_edit := [] |}
      /\ negb (is_empty var_name) && negb (is_empty var_value)
         && isidentifier (ucd H) var_name = true
      /\ exists v,
           (evaluate H (evaluator self) var_value (Some (variables self)) w).1 = Return v)
  \/ (exists e v, out.1 = Raise e /\ exn_class e <> "ValueError"%string
                  /\ str_raises H v = Some e).
Proof.
  intros var_name var_value out. subst out.
  destruct (decide (var_name = [])) as [Hn|Hn].
  { left. rewrite add_variable_blank by by left. done. }
  destruct (decide (var_value = [])) as [Hv|Hv].
  { left. rewrite add_variable_blank by by right. done. }
  destruct (isidentifier (ucd H) var_name) eqn:Hid.
  2: { left. rewrite add_variable_invalid by done. done. }
  unfold add_variable. fold var_name var_value.
  destruct var_name as [|c n] eqn:Hname; [done|].
  destruct var_value as [|c' n'] eqn:Hvalue; [done|].
  cbn [is_empty orb negb andb]. rewrite Hid. cbn [negb].
  unfold try_except_ValueError, try_except, add_variable_body. rewrite bind_run.
  destruct (evaluate H _ _ _ w) as [[v|x] w1] eqn:Hev; cbn [fst snd].
  - rewrite bind_run.
    destruct (dict_setitem (variables self) (c :: n) v w1) as [[[]|x] w2] eqn:Hset;
      [|discriminate Hset].
    rewrite bind_run.
    destruct (update_var_display H self w2) as [[[]|x] w3] eqn:Hupd.
    + right. left. split; [done|]. split; [done|]. by exists v.
    + destruct (String.eqb (exn_class x) "ValueError") eqn:Hcls; [by left|].
      right. right. apply String.eqb_neq in Hcls.
      destruct (update_var_display_raises H self w2 x) as (name & v' & _ & Hr);
        [by rewrite Hupd|].
      by exists x, v'.
  - assert ((evaluate H (evaluator self) (c' :: n') (Some (variables self)) w).1 = Raise x)
      as Hx by by rewrite Hev.
    destruct (evaluate_raises _ _ _ _ _ _ Hx) as [m ->]. by left.
Qed.



Lemma lstrip_starts (s : pystr) : starts_nonspace (lstrip s).
Proof.
  induction s as [|c r IH]; [done|]. simpl.
  destruct (isspace c) eqn:Hc; [done|]. by simpl.
Qed.

Lemma lstrip_id (s : pystr) : starts_nonspace s -> lstrip s = s.
Proof. destruct s as [|c r]; [done|]. simpl. by intros ->. Qed.

Lemma lstrip_decompose (s : pystr) :
  exists sp, Forall (fun c => isspace c = true) sp /\ s = sp ++ lstrip s.
Proof.
  induction s as [|c r (sp & Hsp & Hr)]; [by exists []|]. simpl.
  destruct (isspace c) eqn:Hc.
  - exists (c :: sp). split; [by constructor|]. simpl. by f_equal.
  - by exists [].
Qed.

Lemma starts_nonspace_app (a b : pystr) :
  a <> [] -> starts_nonspace a -> starts_nonspace (a ++ b).
Proof. by destruct a. Qed.

(** What [strip] returns starts and ends with a character that is no
    whitespace. *)
Lemma strip_starts (s : pystr) :
  starts_nonspace (strip s) /\ starts_nonspace (rev (strip s)).
Proof.
  unfold strip. rewrite rev_involutive. split; [|apply lstrip_starts].
  destruct (lstrip_decompose (rev (lstrip s))) as (sp & Hsp & Heq).
  destruct (lstrip (rev (lstrip s))) as [|c b] eqn:Hb; [done|].
  apply (f_equal (@rev N)) in Heq. rewrite rev_involutive, rev_app_distr in Heq.
  pose proof (lstrip_starts s) as Hs. rewrite Heq in Hs.
  destruct (rev (c :: b)) as [|c0 r0] eqn:Hr; [|done].
  apply (f_equal (@length N)) in Hr. rewrite length_rev in Hr. done.
Qed.

Lemma strip_fixed (s : pystr) :
  starts_nonspace s -> starts_nonspace (rev s) -> strip s = s.
Proof.
  intros Hs Hr. unfold strip. rewrite (lstrip_id s Hs), (lstrip_id _ Hr).
  apply rev_involutive.
Qed.

Lemma strip_strip (s : pystr) : strip (strip s) = strip s.
Proof. apply strip_fixed; apply strip_starts. Qed.

Lemma split_once_app (c : N) (a b : pystr) :
  ~ In c a -> split_once c (a ++ c :: b) = (a, Some b).
Proof.
  induction a as [|d a IH]; intros Hna; simpl.
  - by rewrite N.eqb_refl.
  - destruct (d =? c) eqn:Hd.
    + apply N.eqb_eq in Hd. subst. exfalso. apply Hna. by left.
    + rewrite IH; [done|]. intros Hin. apply Hna. by right.
Qed.

Lemma calculate_assignment_eval_log (H : host) (self : FormulaCalculator)
    (var_name var_expr : pystr) (w : world) :
  isidentifier (ucd H) var_name = true ->
  eval_log (try_except_ValueError
              (calculate_assignment H self var_name var_expr;; calculate_done)
              calculate_failed w).2
  = eval_log (evaluate H (evaluator self) var_expr (Some (variables self)) w).2.
Proof.
  intros Hid.
  rewrite (proj2 (calculate_try_store _ w)).
  apply (calculate_assignment_store H self var_name var_expr w Hid).
Qed.

(** X14: the variables tab and the input line agree: with a name that is
    not blank and holds no equals sign and a value that is not blank,
    [add_variable] leaves the same dictionaries and makes the same calls of
    [eval] as [calculate] on the text [name=value]. *)
Theorem X14_add_variable_as_calculate (H : host) (self : FormulaCalculator)
    (edits : var_edits) (w : world) :
  let var_name := strip (var_name_edit edits) in
  let var_value := strip (var_value_edit edits) in
  var_name <> [] -> var_value <> [] -> ~ In EQUALS var_name ->
  heap (add_variable H self edits w).2
    = heap (calculate H self (var_name ++ EQUALS :: var_value) w).2
  /\ eval_log (add_variable H self edits w).2
     = eval_log (calculate H self (var_name ++ EQUALS :: var_value) w).2.
Proof.
  intros var_name var_value Hn Hv Hne.
  assert (strip (var_name ++ EQUALS :: var_value) = var_name ++ EQUALS :: var_value)
    as Hstrip.
  { apply strip_fixed.
    - apply starts_nonspace_app; [done|]. apply strip_starts.
    - rewrite rev_app_distr. simpl. rewrite <- !app_assoc.
      apply starts_nonspace_app; [|apply strip_starts].
      intros Hr. apply (f_equal (@rev N)) in Hr. by rewrite rev_involutive in Hr. }
  rewrite (calculate_equals H self (var_name ++ EQUALS :: var_value))
    by (apply in_or_app; right; by left).
  rewrite Hstrip, (split_once_app _ _ _ Hne). cbn [fst snd from_option id].
  assert (strip var_name = var_name) as -> by (unfold var_name; apply strip_strip).
  assert (strip var_value = var_value) as -> by (unfold var_value; apply strip_strip).
  destruct (isidentifier (ucd H) var_name) eqn:Hid.
  - rewrite calculate_assignment_heap, calculate_assignment_eval_log by done.
    destruct (add_variable_store H self edits w Hn Hv Hid) as [-> ->]. done.
  - rewrite add_variable_invalid by done.
    unfold try_except_ValueError, try_except, calculate_assignment.
    rewrite Hid. done.
Qed.

Lemma X14_add_variable_as_calculate_witness :
  heap (add_variable Reference.python window
          {| var_name_edit := py " a "; var_value_edit := py " lcm(4,6)" |} world0).2
    = heap (calculate Reference.python window
              (strip (py " a ") ++ EQUALS :: strip (py " lcm(4,6)")) world0).2
  /\ eval_log (add_variable Reference.python window
          {| var_name_edit := py " a "; var_value_edit := py " lcm(4,6)" |} world0).2
     = eval_log (calculate Reference.python window
              (strip (py " a ") ++ EQUALS :: strip (py " lcm(4,6)")) world0).2.
Proof.
  apply (X14_add_variable_as_calculate Reference.python window
           {| var_name_edit := py " a "; var_value_edit := py " lcm(4,6)" |} world0).
  - done.
  - done.
  - vm_compute. intros [?|[]]. done.
Defined.

(** [delete_variable] on the dictionaries and the record of [eval]: the
    entry is removed before the table is shown. *)
Lemma delete_variable_effect (H : host) (self : FormulaCalculator)
    (edits : var_edits) (w : world) (d : dict) :
  heap w !! variables self = Some d ->
  let var_name := strip (var_name_edit edits) in
  let out := delete_variable H self edits w in
  eval_log out.2 = eval_log w
  /\ (forall l, l <> variables self -> heap out.2 !! l = heap w !! l)
  /\ heap out.2 !! variables self
     = Some (if bool_decide (var_name = []) then d else delete var_name d).
Proof.
  intros Hd var_name out. subst out. unfold delete_variable. fold var_name.
  destruct var_name as [|c n] eqn:Hname; [done|].
  cbn [is_empty]. rewrite bool_decide_eq_false_2 by done.
  rewrite bind_run. unfold dict_read. cbn beta iota. rewrite (deref_Some _ _ _ Hd).
  case_bool_decide as Hin.
  - match goal with
    | |- context [(?m ≫= ?f) w] =>
      destruct (bind_store m f w) as [-> ->]; [intros []; auto 10 with display|]
    end.
    unfold dict_delitem. run. rewrite (deref_Some _ _ _ Hd).
    split; [done|]. split.
    + intros l Hl. by apply list_lookup_insert_ne.
    + apply list_lookup_insert_eq. by eapply lookup_lt_Some.
  - cbn [fst snd]. split; [done|]. split; [done|].
    rewrite delete_id; [done|]. by apply eq_None_not_Some.
Qed.

(** How [delete_variable] ends. *)
Lemma delete_variable_result (H : host) (self : FormulaCalculator)
    (edits : var_edits) (w : world) (d : dict) :
  heap w !! variables self = Some d ->
  let var_name := strip (var_name_edit edits) in
  let out := delete_variable H self edits w in
  if bool_decide (var_name <> []) && bool_decide (is_Some (d !! var_name))
  then out.1 = Return {| var_name_edit := []; var_value_edit := var_value_edit edits |}
       \/ exists e name v, out.1 = Raise e
                           /\ delete var_name d !! name = Some v
                           /\ str_raises H v = Some e
  else out.1 = Return edits.
Proof.
  intros Hd var_name out. subst out. unfold delete_variable. fold var_name.
  destruct var_name as [|c n] eqn:Hname.
  { cbn [is_empty]. rewrite bool_decide_eq_false_2 by (intros Hc; by apply Hc). done. }
  cbn [is_empty]. rewrite bool_decide_eq_true_2 by done. cbn [andb].
  rewrite bind_run. unfold dict_read. cbn beta iota. rewrite (deref_Some _ _ _ Hd).
  case_bool_decide as Hin; [|done].
  rewrite bind_run.
  destruct (dict_delitem (variables self) (c :: n) w) as [[[]|x] w1] eqn:Hdel;
    [|discriminate Hdel].
  assert (deref (variables self) w1 = delete (c :: n) d) as Hd1.
  { injection Hdel as <-. unfold deref, set_heap. cbn [heap]. rewrite Hd.
    rewrite list_lookup_insert_eq by by eapply lookup_lt_Some. done. }
  rewrite bind_run.
  destruct (update_var_display H self w1) as [[[]|x] w2] eqn:Hupd; [by left|].
  right. destruct (update_var_display_raises H self w1 x) as (name & v & Hv & Hr);
    [by rewrite Hupd|].
  rewrite Hd1 in Hv. by exists x, name, v.
Qed.

(** X15: [delete_variable] never calls [eval] and touches no other
    dictionary; the table afterwards is the table without the name (the
    table as it was when the name is blank or not defined, and then the call
    returns with the edits kept).  The entry is removed before the table is
    shown: the call then returns with the name edit emptied, or it raises
    what [str] raises on one of the values that are left. *)
Theorem X15_delete_variable_outcome (H : host) (self : FormulaCalculator)
    (edits : var_edits) (w : world) (d : dict) :
  heap w !! variables self = Some d ->
  let var_name := strip (var_name_edit edits) in
  let out := delete_variable H self edits w in
  eval_log out.2 = eval_log w
  /\ (forall l, l <> variables self -> heap out.2 !! l = heap w !! l)
  /\ heap out.2 !! variables self
     = Some (if bool_decide (var_name = []) then d else delete var_name d)
  /\ (if bool_decide (var_name <> []) && bool_decide (is_Some (d !! var_name))
      then out.1 = Return {| var_name_edit := [];
                             var_value_edit := var_value_edit edits |}
           \/ exists e name v, out.1 = Raise e
                               /\ delete var_name d !! name = Some v
                               /\ str_raises H v = Some e
      else out.1 = Return edits).
Proof.
  intros Hd var_name out.
  destruct (delete_variable_effect H self edits w d Hd) as (Hlog & Hother & Hvars).
  split; [done|]. split; [done|]. split; [done|].
  by apply delete_variable_result.
Qed.

Lemma X15_delete_variable_outcome_witness :
  heap (delete_variable Reference.python window
          {| var_name_edit := py "e"; var_value_edit := [] |}
          (World [safe_dict_init; {[ py "e" := VInt 10 ]}] [] [])).2 !! variables window
  = Some (if bool_decide (strip (py "e") = []) then {[ py "e" := VInt 10 ]}
          else delete (strip (py "e")) {[ py "e" := VInt 10 ]}).
Proof.
  refine (proj1 (proj2 (proj2
    (X15_delete_variable_outcome Reference.python window
       {| var_name_edit := py "e"; var_value_edit := [] |}
       (World [safe_dict_init; {[ py "e" := VInt 10 ]}] [] [])
       {[ py "e" := VInt 10 ]} _)))).
  reflexivity.
Defined.

(** X16: adding a variable of a new name and deleting it again gives the
    table back as it was. *)
Theorem X16_add_then_delete (H : host) (self : FormulaCalculator)
    (edits edits' : var_edits) (w : world) (d : dict) (v : value) :
  let var_name := strip (var_name_edit edits) in
  let var_value := strip (var_value_edit edits) in
  heap w !! variables self = Some d ->
  var_name <> [] -> var_value <> [] ->
  isidentifier (ucd H) var_name = true ->
  d !! var_name = None ->
  (evaluate H (evaluator self) var_value (Some (variables self)) w).1 = Return v ->
  strip (var_name_edit edits') = var_name ->
  heap (delete_variable H self edits' (add_variable H self edits w).2).2
    !! variables self = Some d.
Proof.
  intros var_name var_value Hd Hn Hv Hid Hfresh Hev Hname'.
  assert (live (Some (variables self)) w) as Hlive
    by (cbn [live]; by eapply lookup_lt_Some).
  destruct (add_variable_store H self edits w Hn Hv Hid) as [Hheap _].
  cbn zeta in Hheap. fold var_name var_value in Hheap.
  pose proof (evaluate_frame H (evaluator self) var_value _ w _ d Hlive Hd) as Hd'.
  rewrite Hev in Hheap. rewrite (deref_Some _ _ _ Hd') in Hheap.
  set (w1 := (add_variable H self edits w).2) in *.
  assert (heap w1 !! variables self = Some (<[var_name := v]> d)) as Hd1.
  { rewrite Hheap. apply list_lookup_insert_eq. by eapply lookup_lt_Some. }
  destruct (delete_variable_effect H self edits' w1 _ Hd1) as (_ & _ & ->).
  rewrite Hname'. rewrite bool_decide_eq_false_2 by done.
  by rewrite delete_insert_id.
Qed.

Lemma X16_add_then_delete_witness :
  heap (delete_variable Reference.python window
          {| var_name_edit := py "a"; var_value_edit := [] |}
          (add_variable Reference.python window
             {| var_name_edit := py "a"; var_value_edit := py "lcm(4,6)" |} world0).2).2
    !! variables window = Some ∅.
Proof.
  apply (X16_add_then_delete Reference.python window
           {| var_name_edit := py "a"; var_value_edit := py "lcm(4,6)" |}
           {| var_name_edit := py "a"; var_value_edit := [] |} world0 ∅ (VInt 12));
    done.
Defined.

(** X17: deleting a variable that hides a built-in brings the built-in
    back: in the scope of the next evaluation the deleted name has the
    entry of the built-in table, or none. *)
Theorem X17_delete_restores_builtin (H : host) (self : FormulaCalculator)
    (edits : var_edits) (raw : pystr) (w : world) (d sd : dict) :
  let var_name := strip (var_name_edit edits) in
  heap w !! variables self = Some d ->
  heap w !! safe_dict (evaluator self) = Some sd ->
  variables self <> safe_dict (evaluator self) ->
  var_name <> [] ->
  is_safe_expression (ucd H) (sanitize_input raw) = true ->
  let w1 := (delete_variable H self edits w).2 in
  exists scope,
    eval_log (evaluate H (evaluator self) raw (Some (variables self)) w1).2
      = eval_log w1 ++ [(sanitize_input raw, eval_globals, scope)]
    /\ scope !! var_name = sd !! var_name.
Proof.
  intros var_name Hd Hsd Hne Hn Hs w1.
  destruct (delete_variable_effect H self edits w d Hd) as (_ & Hother & Hvars).
  fold var_name w1 in Hother, Hvars.
  rewrite bool_decide_eq_false_2 in Hvars by done.
  assert (heap w1 !! safe_dict (evaluator self) = Some sd) as Hsd1.
  { rewrite Hother; [done|]. by intros ?. }
  assert (live (Some (variables self)) w1) as Hlive
    by (cbn [live]; by eapply lookup_lt_Some).
  rewrite (evaluate_accepted H (evaluator self) raw _ w1 Hlive Hs).
  cbn [snd eval_log variables_of].
  rewrite (deref_Some _ _ _ Hvars), (deref_Some _ _ _ Hsd1).
  eexists. split; [reflexivity|].
  rewrite lookup_union_r; [done|]. apply lookup_delete_eq.
Qed.

Lemma X17_delete_restores_builtin_witness :
  exists scope,
    eval_log (evaluate Reference.python (evaluator window) (py "e")
                (Some (variables window))
                (delete_variable Reference.python window
                   {| var_name_edit := py "e"; var_value_edit := [] |}
                   (World [safe_dict_init; {[ py "e" := VInt 10 ]}] [] [])).2).2
      = eval_log (delete_variable Reference.python window
                    {| var_name_edit := py "e"; var_value_edit := [] |}
                    (World [safe_dict_init; {[ py "e" := VInt 10 ]}] [] [])).2
        ++ [(sanitize_input (py "e"), eval_globals, scope)]
    /\ scope !! strip (py "e") = safe_dict_init !! strip (py "e").
Proof.
  apply (X17_delete_restores_builtin Reference.python window
           {| var_name_edit := py "e"; var_value_edit := [] |} (py "e")
           (World [safe_dict_init; {[ py "e" := VInt 10 ]}] [] [])
           {[ py "e" := VInt 10 ]} safe_dict_init); done.
Defined.

(** ** The text of the variable display *)

Lemma str_leb_total (a b : pystr) : str_leb a b = true \/ str_leb b a = true.
Proof.
  revert b. induction a as [|x a IH]; intros [|y b]; simpl; auto.
  destruct (N.ltb_spec x y), (N.ltb_spec y x); auto; lia.
Qed.

Lemma str_leb_trans (a b c : pystr) :
  str_leb a b = true -> str_leb b c = true -> str_leb a c = true.
Proof.
  revert b c. induction a as [|x a IH]; intros [|y b] [|z c]; simpl; try done.
  destruct (N.ltb_spec x y), (N.ltb_spec y x), (N.ltb_spec y z), (N.ltb_spec z y),
           (N.ltb_spec x z), (N.ltb_spec z x); try done; try lia.
  apply IH.
Qed.

#[local] Instance name_le_total : Total name_le.
Proof. intros p q. apply str_leb_total. Qed.

#[local] Instance name_le_trans : Transitive name_le.
Proof. intros p q r. apply str_leb_trans. Qed.

Lemma foldl_append (f : pystr * value -> pystr) (items : list (pystr * value))
    (text : pystr) :
  foldl (fun t item => t ++ f item) text items = text ++ concat (f <$> items).
Proof.
  revert text. induction items as [|i items IH]; intros text; simpl.
  - by rewrite app_nil_r.
  - by rewrite IH, app_assoc.
Qed.

Lemma length_ljust (width : nat) (s : pystr) :
  (length s <= width)%nat -> length (ljust width s) = width.
Proof. intros Hs. unfold ljust. rewrite length_app, length_replicate. lia. Qed.

(** X18: the variable display of a table that is not empty is the header
    followed by one line per variable, the lines in ascending order of the
    names (by code points), each name padded to the length of the longest
    one so that the equals signs stand in one column. *)
Theorem X18_var_display_text (H : host) (vars : dict) :
  vars <> ∅ ->
  let max_len := max_list (length <$> (map_to_list vars).*1) in
  var_display_text H vars = VAR_HEADER ++ concat (var_line H max_len <$> sorted_items vars)
  /\ sorted_items vars ≡ₚ map_to_list vars
  /\ StronglySorted name_le (sorted_items vars)
  /\ Forall (fun item => length (ljust max_len item.1) = max_len) (sorted_items vars).
Proof.
  intros Hne max_len. unfold var_display_text.
  rewrite bool_decide_eq_false_2 by done. fold max_len.
  split; [apply foldl_append|].
  split; [apply merge_sort_Permutation|].
  split; [apply StronglySorted_merge_sort; apply _|].
  apply Forall_forall. intros item Hitem.
  apply length_ljust, max_list_elem_of_le.
  apply list_elem_of_fmap. exists item.1. split; [done|].
  apply list_elem_of_fmap. exists item. split; [done|].
  unfold sorted_items in Hitem. by rewrite merge_sort_Permutation in Hitem.
Qed.

Lemma X18_var_display_text_witness :
  var_display_text Reference.python {[ py "b" := VInt 2; py "ab" := VInt 1 ]}
  = VAR_HEADER ++ py "ab = 1" ++ [LF] ++ py "b  = 2" ++ [LF].
Proof.
  assert (({[ py "b" := VInt 2; py "ab" := VInt 1 ]} : dict) <> ∅) as Hne.
  { intros Hempty. apply (f_equal (fun m : dict => m !! py "b")) in Hempty.
    vm_compute in Hempty. discriminate. }
  rewrite (proj1 (X18_var_display_text Reference.python _ Hne)).
  vm_compute. reflexivity.
Defined.

(** ** The buttons *)

(** X19: what the buttons of the calculation tab insert is accepted by the
    validator character by character; a function button inserts the name of
    a function of the built-in table followed by [()], a constant button
    the name of a float of the built-in table, and the buttons [^] and [=]
    insert [**] and [==]. *)
Theorem X19_buttons_insert_safe_text (U : unicode_db) :
  Forall (fun func =>
            forallb (safe_char U) (insert_function func) = true
            /\ exists name q, insert_function func = name ++ py "()"
                              /\ safe_dict_init !! name = Some (VBuiltin q))
    math_funcs
  /\ Forall (fun const =>
               forallb (safe_char U) (insert_constant const) = true
               /\ exists f, safe_dict_init !! insert_constant const = Some (VFloat f))
       constants
  /\ Forall (fun op => forallb (safe_char U) (insert_operator op) = true) operators
  /\ insert_operator (py "^") = py "**"
  /\ insert_operator (py "=") = py "==".
Proof.
  split; [|split; [|split; [|split]]].
  - apply Forall_forall. intros func Hfunc. unfold math_funcs in Hfunc. simpl in Hfunc.
    repeat (apply elem_of_cons in Hfunc as [-> | Hfunc]);
      [..|by apply elem_of_nil in Hfunc];
      (split; [reflexivity|]);
      match goal with
      | |- exists name q, insert_function ?f = _ /\ _ =>
        exists (take (length f - 2) f); eexists; split; reflexivity
      end.
  - apply Forall_forall. intros const Hconst. unfold constants in Hconst. simpl in Hconst.
    repeat (apply elem_of_cons in Hconst as [-> | Hconst]);
      [..|by apply elem_of_nil in Hconst];
      (split; [reflexivity|eexists; reflexivity]).
  - apply Forall_forall. intros op Hop. unfold operators in Hop. simpl in Hop.
    repeat (apply elem_of_cons in Hop as [-> | Hop]);
      [..|by apply elem_of_nil in Hop]; reflexivity.
  - reflexivity.
  - reflexivity.
Qed.

(** ** The history *)

Lemma load_history_history (st : HistoryTab.state) :
  HistoryTab.history (HistoryTab.load_history st)
  = default [] (HistoryTab.stored_history st).
Proof.
  unfold HistoryTab.load_history.
  by destruct (default [] (HistoryTab.stored_history st)).
Qed.

(** X20: clearing the history reaches the stored history only when the
    autosave box is checked: a following [load_history] gives the empty
    history then, and otherwise the stored one, which comes back. *)
Theorem X20_clear_history_needs_autosave (st : HistoryTab.state) :
  HistoryTab.history (HistoryTab.clear_history st) = []
  /\ HistoryTab.history_list (HistoryTab.clear_history st) = []
  /\ HistoryTab.stored_history (HistoryTab.clear_history st)
     = (if HistoryTab.autosave_check st then Some []
        else HistoryTab.stored_history st)
  /\ HistoryTab.history (HistoryTab.load_history (HistoryTab.clear_history st))
     = (if HistoryTab.autosave_check st then []
        else default [] (HistoryTab.stored_history st)).
Proof.
  rewrite load_history_history.
  unfold HistoryTab.clear_history, HistoryTab.save_history. cbn.
  by destruct (HistoryTab.autosave_check st).
Qed.

(** X21: [load_history] takes over the stored history; when that is not
    empty both text areas show its lines, when nothing (or an empty list) is
    stored the history becomes empty while the two text areas keep what
    they showed; loading twice is loading once. *)
Theorem X21_load_history (st : HistoryTab.state) :
  let st' := HistoryTab.load_history st in
  HistoryTab.history st' = default [] (HistoryTab.stored_history st)
  /\ (if bool_decide (HistoryTab.history st' = [])
      then HistoryTab.result_area st' = HistoryTab.result_area st
           /\ HistoryTab.history_list st' = HistoryTab.history_list st
      else HistoryTab.result_area st'
           = join HistoryTab.NEWLINE (HistoryTab.history st')
           /\ HistoryTab.history_list st'
              = join HistoryTab.NEWLINE (HistoryTab.history st'))
  /\ HistoryTab.load_history st' = st'.
Proof.
  intros st'. subst st'. unfold HistoryTab.load_history.
  destruct (HistoryTab.stored_history st) as [[|h hs]|] eqn:Hst; cbn;
    rewrite ?Hst; cbn; done.
Qed.

(** ** The names of the built-in table *)

(** X22: every name of the built-in table can be written in an expression
    (the validator accepts it), except [__builtins__], which it rejects. *)
Theorem X22_builtin_names_are_safe (U : unicode_db) :
  Forall (fun item : pystr * value =>
            item.1 <> PyFragment.BUILTINS_KEY -> is_safe_expression U item.1 = true)
    safe_dict_items
  /\ safe_dict_init !! PyFragment.BUILTINS_KEY = Some VNone
  /\ is_safe_expression U PyFragment.BUILTINS_KEY = false.
Proof.
  split; [|split; reflexivity].
  unfold safe_dict_items.
  repeat (apply Forall_cons; split; [first [by intros _ | by intros Hne]|]).
  apply Forall_nil. done.
Qed.
